(** * Number identities, range expansion and the three fix operations of app.py

    A shallow embedding of [src/app.py].  Python [str] values are modelled as
    [string] over the code points 0..255; in that range the characters matched
    by the regular-expression classes [\d] and [\s] are exactly the ones
    listed in [is_digit] and [is_space].  Python integers are [Z].  The
    integer-string conversion limit of recent interpreters is not modelled. *)

From Stdlib Require Import ZArith Lia Ascii String.
From stdpp Require Import gmap strings list fin_maps.

Local Open Scope string_scope.
Local Open Scope Z_scope.

#[local] Arguments String.append !_ _ / : simpl nomatch.

(** ** Exceptions and results *)

(** The exceptions the program raises itself, and the ones a store driver can
    raise ([DriverError]). *)
Inductive exn : Type :=
  | HTTPException (status_code : Z) (detail : string)
  | RuntimeError (msg : string)
  | ValueError (msg : string)
  | DriverError (msg : string).

Inductive result (A : Type) : Type :=
  | Ok (a : A)
  | Raise (e : exn).
Arguments Ok {A} a.
Arguments Raise {A} e.

Definition rbind {A B} (r : result A) (f : A → result B) : result B :=
  match r with
  | Ok a => f a
  | Raise e => Raise e
  end.

(** ** Characters and strings *)

Module Str.

Definition code (c : ascii) : Z := Z.of_N (N_of_ascii c).

(** [\d] on code points below 256: the ten ASCII digits. *)
Definition is_digit (c : ascii) : bool := (48 <=? code c) && (code c <=? 57).

(** [\s] on code points below 256. *)
Definition is_space (c : ascii) : bool :=
  ((9 <=? code c) && (code c <=? 13)) || ((28 <=? code c) && (code c <=? 32))
  || (code c =? 133) || (code c =? 160).

Fixpoint filter (f : ascii → bool) (s : string) : string :=
  match s with
  | EmptyString => EmptyString
  | String c r => if f c then String c (filter f r) else filter f r
  end.

Fixpoint all (f : ascii → bool) (s : string) : bool :=
  match s with
  | EmptyString => true
  | String c r => f c && all f r
  end.

(** [c in s] for a one-character needle. *)
Fixpoint contains (c : ascii) (s : string) : bool :=
  match s with
  | EmptyString => false
  | String d r => if Ascii.eqb d c then true else contains c r
  end.

Definition len (s : string) : Z := Z.of_nat (String.length s).

(** [s[:n]] and [s[n:]] for [n >= 0]. *)
Fixpoint take (n : nat) (s : string) : string :=
  match n, s with
  | S n', String c r => String c (take n' r)
  | _, _ => EmptyString
  end.

Fixpoint drop (n : nat) (s : string) : string :=
  match n, s with
  | S n', String _ r => drop n' r
  | _, _ => s
  end.

(** [s.startswith(p)]. *)
Fixpoint startswith (p s : string) : bool :=
  match p, s with
  | EmptyString, _ => true
  | String a p', String b s' => Ascii.eqb a b && startswith p' s'
  | String _ _, EmptyString => false
  end.

(** [s.split(sep, 1)] for a one-character separator: one piece when the
    separator does not occur, otherwise the text before its first occurrence
    and the text after it. *)
Fixpoint split1 (sep : ascii) (s : string) : list string :=
  match s with
  | EmptyString => [EmptyString]
  | String c r =>
      if Ascii.eqb c sep then [EmptyString; r]
      else match split1 sep r with
           | h :: t => String c h :: t
           | [] => [String c EmptyString]
           end
  end.

Fixpoint replicate (n : nat) (c : ascii) : string :=
  match n with
  | O => EmptyString
  | S n' => String c (replicate n' c)
  end.

Definition digit_char (d : Z) : ascii := ascii_of_N (Z.to_N (48 + d)).

(** [int(s)] on a string of ASCII digits (the empty string is never passed). *)
Fixpoint int_acc (acc : Z) (s : string) : Z :=
  match s with
  | EmptyString => acc
  | String c r => int_acc (10 * acc + (code c - 48)) r
  end.

Definition int (s : string) : Z := int_acc 0 s.

(** Decimal digits of a non-negative integer, most significant first. *)
Fixpoint digits (fuel : nat) (n : Z) : string :=
  match fuel with
  | O => EmptyString
  | S f =>
      if n <? 10 then String (digit_char n) EmptyString
      else digits f (n / 10) +:+ String (digit_char (n mod 10)) EmptyString
  end.

Definition digits_fuel (n : Z) : nat := S (Z.to_nat (Z.log2 n)).

(** [str(n)] for an integer. *)
Definition str (n : Z) : string :=
  if n <? 0 then String "-" (digits (digits_fuel (- n)) (- n))
  else digits (digits_fuel n) n.

(** [s.zfill(width)]: zeros go after a leading sign. *)
Definition zfill (width : Z) (s : string) : string :=
  let pad := Z.to_nat (width - len s) in
  match s with
  | String c r =>
      if Ascii.eqb c "-" || Ascii.eqb c "+"
      then String c (replicate pad "0" +:+ r)
      else replicate pad "0" +:+ s
  | EmptyString => replicate pad "0"
  end.

End Str.

(** [range(a, b)]. *)
Definition range (a b : Z) : list Z := seqZ a (b - a).

(** ** Number logic (app.py, lines 51-114) *)

Definition normalize_to_digits (s : string) : string := Str.filter Str.is_digit s.

Definition unsupported_number_format (number : string) : exn :=
  HTTPException 400 ("Unsupported number format: " +:+ number).

Definition to_dn_and_target (number : string) : result (string * string) :=
  let raw := normalize_to_digits number in
  if (Str.len raw =? 10) && Str.startswith "0" raw then
    let dn := "41" +:+ Str.drop 1 raw in
    Ok (dn, raw)
  else if (Str.len raw =? 11) && Str.startswith "41" raw then
    let target := "0" +:+ Str.drop 2 raw in
    Ok (raw, target)
  else Raise (unsupported_number_format number).

Definition bad_range_format : exn := HTTPException 400 "Bad range format".
Definition range_end_before_start : exn := HTTPException 400 "Range end < start".
Definition range_too_large (max_span : Z) : exn :=
  HTTPException 400 ("Range too large (>" +:+ Str.str max_span +:+ ")").

Definition is_empty (s : string) : bool :=
  match s with EmptyString => true | _ => false end.

(** [re.sub(r"\s+", "", expr)]. *)
Definition strip_whitespace (expr : string) : string :=
  Str.filter (λ c, negb (Str.is_space c)) expr.

Definition expand_numbers (expr : string) (max_span : Z) : result (list string) :=
  let s := strip_whitespace expr in
  if negb (Str.contains "-" s) then Ok [s]
  else
    match Str.split1 "-" s with
    | [start_s; end_s] =>
        let start_digits := normalize_to_digits start_s in
        let end_digits := normalize_to_digits end_s in
        if is_empty start_digits || is_empty end_digits then Raise bad_range_format
        else
          let end_full :=
            if Str.len end_digits <? Str.len start_digits
            then Str.take (Z.to_nat (Str.len start_digits - Str.len end_digits)) start_digits
                   +:+ end_digits
            else end_digits in
          let start_i := Str.int start_digits in
          let end_i := Str.int end_full in
          if end_i <? start_i then Raise range_end_before_start
          else
            let span := end_i - start_i + 1 in
            if span >? max_span then Raise (range_too_large max_span)
            else
              let width := Str.len start_digits in
              Ok ((λ n, Str.zfill width (Str.str n)) <$> range start_i (end_i + 1))
    | _ => Raise (ValueError "not enough values to unpack")
    end.

Record Preview := {
  count : Z;
  expanded_targets : list string;
  expanded_dns : list string;
  expanded_redis_keys : list string;
}.

(** The loop of [expand_preview]: it appends to [dns] and [ttargets] and stops
    at the first element [to_dn_and_target] rejects. *)
Fixpoint classify_all (targets dns ttargets : list string)
  : result (list string * list string) :=
  match targets with
  | [] => Ok (dns, ttargets)
  | t :: rest =>
      match to_dn_and_target t with
      | Ok (dn, target) => classify_all rest (dns ++ [dn]) (ttargets ++ [target])
      | Raise e => Raise e
      end
  end.

Definition expand_preview (expr : string) : result Preview :=
  rbind (expand_numbers expr 100) (λ targets,
  rbind (classify_all targets [] []) (λ '(dns, ttargets),
  let redis_keys := (λ dn, "nprn:routing:" +:+ dn) <$> dns in
  Ok {| count := Z.of_nat (length ttargets);
        expanded_targets := ttargets;
        expanded_dns := dns;
        expanded_redis_keys := redis_keys |})).

(** ** Requests, configuration and response values (app.py, lines 18-48) *)

(** The environment settings read at start-up.  The module refuses to start
    with an empty [API_TOKEN]. *)
Record Config := {
  API_TOKEN : string;
  PG_DSN : string;
  REDIS_URL : string;
  REDIS_DB : Z;
  MDB_HOST : string;
  MDB_PORT : Z;
  MDB_USER : string;
  MDB_PASS : string;
  MDB_DB : string;
}.

Inductive EnpTarget : Type := NXP1 | NXP2.

Definition enp_name (t : EnpTarget) : string :=
  match t with NXP1 => "NXP1" | NXP2 => "NXP2" end.

Record FixRequest := {
  input : string;
  dry_run : bool;
  enp_target : EnpTarget;
}.

(** A request, as far as the program reads it: its headers by lower-case name. *)
Record Request := { headers : gmap string string }.

(** A row of [cli_provisioning], with the columns the snapshot query selects. *)
Record cli_row := {
  c_id : Z;
  c_target_number : string;
  c_target_system : string;
  c_tenant : string;
  c_nprn : Z;
  c_insert_date : string;
}.

(** A row of [numbers], with the columns the update names. *)
Record numbers_row := {
  n_dn : string;
  n_reservation_tstamp : string;
  n_product_id : Z;
  n_system_id : Z;
  n_nprn : Z;
  n_outporting_tstamp : option string;
  n_lastupdated_tstamp : string;
}.

Inductive pyval : Type :=
  | VBool (b : bool)
  | VInt (z : Z)
  | VStr (s : string)
  | VStrs (l : list string)
  | VInts (l : list Z)
  | VRows (l : list cli_row).

(** A dict display [{k1: v1, ..., **d, ...}]: items are stored left to right,
    a later item replacing an earlier one with the same key. *)
Definition dict_lit (items : list (string * pyval)) : gmap string pyval :=
  foldl (λ m kv, <[kv.1 := kv.2]> m) ∅ items.

Definition preview_items (prev : Preview) : list (string * pyval) :=
  [("count", VInt (count prev));
   ("expanded_targets", VStrs (expanded_targets prev));
   ("expanded_dns", VStrs (expanded_dns prev));
   ("expanded_redis_keys", VStrs (expanded_redis_keys prev))].

Record EnpProfile := { system_id : Z; nprn : Z }.

Definition ENP_MAP (t : EnpTarget) : EnpProfile :=
  match t with
  | NXP1 => {| system_id := 500; nprn := 98067 |}
  | NXP2 => {| system_id := 510; nprn := 98019 |}
  end.

Definition profile_items (cfg : EnpProfile) : list (string * pyval) :=
  [("system_id", VInt (system_id cfg)); ("nprn", VInt (nprn cfg))].

Definition require_token (conf : Config) (req : Request) : result unit :=
  let token :=
    match headers req !! "x-api-token" with
    | Some t => if is_empty t then "" else t
    | None => ""
    end in
  if negb (String.eqb token (API_TOKEN conf))
  then Raise (HTTPException 401 "Unauthorized")
  else Ok tt.

(** ** Store calls *)

(** The statement of [fix_enp]:
    UPDATE numbers SET reservation_tstamp = '2050-01-01 00:00:00',
    product_id = 1, system_id = %s, nprn = %s, outporting_tstamp = NULL,
    lastupdated_tstamp = NOW() WHERE dn = ANY(%s) RETURNING dn. *)
Inductive pg_stmt : Type :=
  | UpdateNumbers (sid np : Z) (dns : list string).

(** The statements of [fix_disp], both with
    WHERE target_number IN (one placeholder per target). *)
Inductive mdb_stmt : Type :=
  | SelectCliProvisioning (targets : list string)
  | DeleteCliProvisioning (targets : list string).

(** Every call into a store client library.  A cursor is a client-side
    object: creating and closing it is no call.  [PgExecute] stands for
    [cur.execute] followed by [cur.fetchall], [MdbQuery] likewise;
    [MdbExecute] answers the cursor's [rowcount]. *)
Inductive StoreCall : Type :=
  | PgConnect (dsn : string)
  | PgExecute (stmt : pg_stmt)
  | PgCommit
  | PgRollback
  | PgClose
  | RedisFromUrl (url : string)
  | RedisSelect (db : Z)
  | RedisPipelineDelete (keys : list string)
  | MdbConnect (host : string) (port : Z) (user password database : string)
               (autocommit : bool)
  | MdbQuery (stmt : mdb_stmt)
  | MdbExecute (stmt : mdb_stmt)
  | MdbCommit
  | MdbRollback
  | MdbClose.

Definition resp (c : StoreCall) : Type :=
  match c with
  | PgExecute _ => list string
  | RedisPipelineDelete _ => list Z
  | MdbQuery _ => list cli_row
  | MdbExecute _ => Z
  | _ => unit
  end.

(** ** Programs that call stores *)

(** A handler either returns, raises, or calls a store and goes on with what
    the store answers: a value or an exception. *)
Inductive Prog (R : Type) : Type :=
  | Ret (r : R)
  | Throw (e : exn)
  | Call (c : StoreCall) (k : result (resp c) → Prog R).
Arguments Ret {R} r.
Arguments Throw {R} e.
Arguments Call {R} c k.

Fixpoint bind {A B} (p : Prog A) (f : A → Prog B) : Prog B :=
  match p with
  | Ret a => f a
  | Throw e => Throw e
  | Call c k => Call c (λ x, bind (k x) f)
  end.

#[export] Instance prog_ret : MRet Prog := @Ret.
#[export] Instance prog_bind : MBind Prog := λ A B f p, bind p f.

Definition lift {A} (r : result A) : Prog A :=
  match r with
  | Ok a => Ret a
  | Raise e => Throw e
  end.

(** A store call whose exception is not caught at the call. *)
Definition call (c : StoreCall) : Prog (resp c) := Call c lift.

(** [try: p  except: h(e)]. *)
Fixpoint try_except {A} (p : Prog A) (h : exn → Prog A) : Prog A :=
  match p with
  | Ret a => Ret a
  | Throw e => h e
  | Call c k => Call c (λ x, try_except (k x) h)
  end.

(** [try: p  finally: fin]; an exception of [fin] replaces the outcome. *)
Fixpoint try_finally {A} (p : Prog A) (fin : Prog unit) : Prog A :=
  match p with
  | Ret a => bind fin (λ _, Ret a)
  | Throw e => bind fin (λ _, Throw e)
  | Call c k => Call c (λ x, try_finally (k x) fin)
  end.

(** Leaving the block of [with psycopg.connect(...) as conn]: commit when the
    block returned, roll back (ignoring a failure of the rollback) when it
    raised, then close. *)
Fixpoint pg_conn_exit {A} (p : Prog A) : Prog A :=
  match p with
  | Ret a => bind (call PgCommit) (λ _, bind (call PgClose) (λ _, Ret a))
  | Throw e => Call PgRollback (λ _, bind (call PgClose) (λ _, Throw e))
  | Call c k => Call c (λ x, pg_conn_exit (k x))
  end.

(** Running a program against stores: [h] answers every call and moves the
    world; the calls made are recorded in order. *)
Definition Handler (W : Type) : Type := ∀ c : StoreCall, W → result (resp c) * W.

Fixpoint run {W R} (h : Handler W) (p : Prog R) (w : W) : result R * W * list StoreCall :=
  match p with
  | Ret r => (Ok r, w, [])
  | Throw e => (Raise e, w, [])
  | Call c k =>
      let '(x, w1) := h c w in
      let '(r, w2, t) := run h (k x) w1 in
      (r, w2, c :: t)
  end.

(** ** Connections (app.py, lines 117-140) *)

Definition pg_conn (conf : Config) : Prog unit :=
  if is_empty (PG_DSN conf) then Throw (RuntimeError "PG_DSN missing")
  else call (PgConnect (PG_DSN conf)).

Definition redis_conn (conf : Config) : Prog unit :=
  if is_empty (REDIS_URL conf) then Throw (RuntimeError "REDIS_URL missing")
  else call (RedisFromUrl (REDIS_URL conf)).

Definition mariadb_conn (conf : Config) : Prog unit :=
  if negb (negb (is_empty (MDB_HOST conf)) && negb (is_empty (MDB_USER conf))
           && negb (is_empty (MDB_DB conf)))
  then Throw (RuntimeError "MariaDB env missing")
  else call (MdbConnect (MDB_HOST conf) (MDB_PORT conf) (MDB_USER conf)
                        (MDB_PASS conf) (MDB_DB conf) false).

(** ** The three operations (app.py, lines 149-236) *)

Definition fix_enp (conf : Config) (req : Request) (body : FixRequest)
  : Prog (gmap string pyval) :=
  _ ← lift (require_token conf req);
  prev ← lift (expand_preview (input body));
  let cfg := ENP_MAP (enp_target body) in
  if dry_run body then
    Ret (dict_lit ([("dry_run", VBool true); ("enp_target", VStr (enp_name (enp_target body)))]
                   ++ preview_items prev ++ profile_items cfg))
  else
    let dns := expanded_dns prev in
    updated_dns ← (_ ← pg_conn conf;
                   pg_conn_exit (call (PgExecute (UpdateNumbers (system_id cfg) (nprn cfg) dns))));
    Ret (dict_lit ([("dry_run", VBool false); ("enp_target", VStr (enp_name (enp_target body)))]
                   ++ preview_items prev ++ profile_items cfg
                   ++ [("updated_dns", VStrs updated_dns)])).

Definition fix_nprn (conf : Config) (req : Request) (body : FixRequest)
  : Prog (gmap string pyval) :=
  _ ← lift (require_token conf req);
  prev ← lift (expand_preview (input body));
  if dry_run body then
    Ret (dict_lit ([("dry_run", VBool true)] ++ preview_items prev
                   ++ [("redis_db", VInt (REDIS_DB conf))]))
  else
    _ ← redis_conn conf;
    _ ← call (RedisSelect (REDIS_DB conf));
    deleted_counts ← call (RedisPipelineDelete (expanded_redis_keys prev));
    Ret (dict_lit ([("dry_run", VBool false)] ++ preview_items prev
                   ++ [("redis_db", VInt (REDIS_DB conf));
                       ("deleted_counts", VInts deleted_counts)])).

Definition fix_disp (conf : Config) (req : Request) (body : FixRequest)
  : Prog (gmap string pyval) :=
  _ ← lift (require_token conf req);
  prev ← lift (expand_preview (input body));
  let targets := expanded_targets prev in
  _ ← mariadb_conn conf;
  try_finally
    (try_except
       (rows ← call (MdbQuery (SelectCliProvisioning targets));
        if dry_run body then
          Ret (dict_lit ([("dry_run", VBool true)] ++ preview_items prev
                         ++ [("would_delete_count", VInt (Z.of_nat (length rows)));
                             ("would_delete_rows", VRows rows)]))
        else
          rowcount ← call (MdbExecute (DeleteCliProvisioning targets));
          _ ← call MdbCommit;
          Ret (dict_lit ([("dry_run", VBool false)] ++ preview_items prev
                         ++ [("deleted_count", VInt rowcount);
                             ("deleted_rows", VRows rows)])))
       (λ e, _ ← call MdbRollback; Throw e))
    (call MdbClose).

(** ** Specification-side notions *)

(** [d] is the decimal string of [n]: digits only, valued [n], and without a
    leading zero unless it is ["0"] itself. *)
Definition is_decimal_of (d : string) (n : Z) : Prop :=
  d ≠ "" ∧ Str.all Str.is_digit d = true ∧ Str.int d = n
  ∧ (d = "0" ∨ Str.startswith "0" d = false).

(** Step 4 of the expander as the specification words it. *)
Definition end_full_spec (start_digits end_digits : string) : string :=
  if Str.len end_digits <? Str.len start_digits
  then Str.take (Z.to_nat (Str.len start_digits - Str.len end_digits)) start_digits
         +:+ end_digits
  else end_digits.

(** Left padding with zeros to a width, as the specification words it. *)
Definition zero_padded (width : Z) (d : string) : string :=
  Str.replicate (Z.to_nat (width - Str.len d)) "0" +:+ d.

(** ** Reference stores *)

(** The row the update of [fix_enp] writes over a matched row; [now] is the
    store's clock. *)
Definition update_numbers_row (now : string) (sid np : Z) (r : numbers_row)
  : numbers_row :=
  {| n_dn := n_dn r;
     n_reservation_tstamp := "2050-01-01 00:00:00";
     n_product_id := 1;
     n_system_id := sid;
     n_nprn := np;
     n_outporting_tstamp := None;
     n_lastupdated_tstamp := now |}.

(** Meaning of a [pg_stmt] on the [numbers] table: the new table and the
    returned [dn] column. *)
Definition pg_apply (now : string) (stmt : pg_stmt) (tbl : list numbers_row)
  : list numbers_row * list string :=
  match stmt with
  | UpdateNumbers sid np dns =>
      ((λ r, if bool_decide (n_dn r ∈ dns) then update_numbers_row now sid np r else r)
         <$> tbl,
       n_dn <$> filter (λ r, n_dn r ∈ dns) tbl)
  end.

(** A relational store that never fails: statements act on the open
    transaction, commit makes it durable, rollback and close drop it. *)
Record PgWorld := {
  pg_committed : list numbers_row;
  pg_working : list numbers_row;
  pg_now : string;
}.

Definition unavailable {A} : result A := Raise (DriverError "store unavailable").

Definition pg_handler : Handler PgWorld := λ c w,
  match c return result (resp c) * PgWorld with
  | PgConnect _ => (Ok tt, w)
  | PgExecute stmt =>
      let '(tbl, out) := pg_apply (pg_now w) stmt (pg_working w) in
      (Ok out, {| pg_committed := pg_committed w; pg_working := tbl; pg_now := pg_now w |})
  | PgCommit =>
      (Ok tt, {| pg_committed := pg_working w; pg_working := pg_working w;
                 pg_now := pg_now w |})
  | PgRollback | PgClose =>
      (Ok tt, {| pg_committed := pg_committed w; pg_working := pg_committed w;
                 pg_now := pg_now w |})
  | RedisFromUrl _ | RedisSelect _ | MdbConnect _ _ _ _ _ _
  | MdbCommit | MdbRollback | MdbClose => (unavailable, w)
  | RedisPipelineDelete _ => (unavailable, w)
  | MdbQuery _ => (unavailable, w)
  | MdbExecute _ => (unavailable, w)
  end.

(** Meaning of an [mdb_stmt] on the [cli_provisioning] table: the new table,
    the rows read and the row count. *)
Definition mdb_apply (stmt : mdb_stmt) (tbl : list cli_row)
  : list cli_row * list cli_row * Z :=
  match stmt with
  | SelectCliProvisioning targets =>
      let rows := filter (λ r, c_target_number r ∈ targets) tbl in
      (tbl, rows, Z.of_nat (length rows))
  | DeleteCliProvisioning targets =>
      (filter (λ r, c_target_number r ∉ targets) tbl, [],
       Z.of_nat (length (filter (λ r, c_target_number r ∈ targets) tbl)))
  end.

(** A provisioning store opened without autocommit, in which the next
    [execute] can be made to fail. *)
Record MdbWorld := {
  mdb_committed : list cli_row;
  mdb_working : list cli_row;
  mdb_execute_fault : option exn;
}.

Definition mdb_handler : Handler MdbWorld := λ c w,
  match c return result (resp c) * MdbWorld with
  | MdbConnect _ _ _ _ _ _ => (Ok tt, w)
  | MdbQuery stmt =>
      let '(tbl, rows, _) := mdb_apply stmt (mdb_working w) in
      (Ok rows, {| mdb_committed := mdb_committed w; mdb_working := tbl;
                   mdb_execute_fault := mdb_execute_fault w |})
  | MdbExecute stmt =>
      match mdb_execute_fault w with
      | Some e => (Raise e, w)
      | None =>
          let '(tbl, _, n) := mdb_apply stmt (mdb_working w) in
          (Ok n, {| mdb_committed := mdb_committed w; mdb_working := tbl;
                    mdb_execute_fault := None |})
      end
  | MdbCommit =>
      (Ok tt, {| mdb_committed := mdb_working w; mdb_working := mdb_working w;
                 mdb_execute_fault := mdb_execute_fault w |})
  | MdbRollback | MdbClose =>
      (Ok tt, {| mdb_committed := mdb_committed w; mdb_working := mdb_committed w;
                 mdb_execute_fault := mdb_execute_fault w |})
  | PgConnect _ | PgCommit | PgRollback | PgClose
  | RedisFromUrl _ | RedisSelect _ => (unavailable, w)
  | PgExecute _ => (unavailable, w)
  | RedisPipelineDelete _ => (unavailable, w)
  end.

(** A key-value store that does not fail, with its numbered databases; the
    commands of one client act on the database it selected last.  [DEL]
    answers 1 for a key that existed and 0 for one that did not. *)
Record RedisWorld := {
  redis_selected : Z;
  redis_dbs : gmap Z (gmap string string);
}.

Definition redis_keyspace (w : RedisWorld) (db : Z) : gmap string string :=
  default ∅ (redis_dbs w !! db).

Fixpoint redis_del (keys : list string) (ks : gmap string string)
  : list Z * gmap string string :=
  match keys with
  | [] => ([], ks)
  | k :: rest =>
      let n := match ks !! k with Some _ => 1 | None => 0 end in
      let '(ns, ks') := redis_del rest (delete k ks) in
      (n :: ns, ks')
  end.

Definition redis_handler : Handler RedisWorld := λ c w,
  match c return result (resp c) * RedisWorld with
  | RedisFromUrl _ => (Ok tt, w)
  | RedisSelect db => (Ok tt, {| redis_selected := db; redis_dbs := redis_dbs w |})
  | RedisPipelineDelete keys =>
      let '(ns, ks) := redis_del keys (redis_keyspace w (redis_selected w)) in
      (Ok ns, {| redis_selected := redis_selected w;
                 redis_dbs := <[redis_selected w := ks]> (redis_dbs w) |})
  | PgConnect _ | PgCommit | PgRollback | PgClose
  | MdbConnect _ _ _ _ _ _ | MdbCommit | MdbRollback | MdbClose => (unavailable, w)
  | PgExecute _ => (unavailable, w)
  | MdbQuery _ => (unavailable, w)
  | MdbExecute _ => (unavailable, w)
  end.

(** A store double that follows a script: each call takes the next flag and
    succeeds with an empty answer when it is [true], raises when it is
    [false]; calls beyond the script succeed. *)
Definition empty_answer (c : StoreCall) : resp c :=
  match c return resp c with
  | PgExecute _ => []
  | RedisPipelineDelete _ => []
  | MdbQuery _ => []
  | MdbExecute _ => 0
  | PgConnect _ | PgCommit | PgRollback | PgClose
  | RedisFromUrl _ | RedisSelect _
  | MdbConnect _ _ _ _ _ _ | MdbCommit | MdbRollback | MdbClose => tt
  end.

Definition scripted_handler : Handler (list bool) := λ c script,
  match script with
  | false :: rest => (Raise (DriverError "scripted failure"), rest)
  | true :: rest => (Ok (empty_answer c), rest)
  | [] => (Ok (empty_answer c), [])
  end.

(** ** Start-up (app.py, lines 16-33) *)

(** What the module binds at import: the listen address and the settings the
    handlers read. *)
Record Settings := {
  BIND_HOST : string;
  BIND_PORT : Z;
  settings_conf : Config;
}.

(** [os.getenv(key, default)] and [os.environ.get(key, default)] on the process
    environment (after [load_dotenv]). *)
Definition getenv (environ : gmap string string) (key default : string) : string :=
  match environ !! key with
  | Some v => v
  | None => default
  end.

(** The module body up to line 33, top to bottom; [py_int] is the
    interpreter's [int] on a string, which raises on what it cannot read. *)
Definition load_settings (py_int : string → result Z) (environ : gmap string string)
  : result Settings :=
  let bind_host := getenv environ "BIND_HOST" "0.0.0.0" in
  rbind (py_int (getenv environ "BIND_PORT" "8000")) (λ bind_port,
  let api_token := getenv environ "API_TOKEN" "" in
  let pg_dsn := getenv environ "PG_DSN" "" in
  let redis_url := getenv environ "REDIS_URL" "" in
  rbind (py_int (getenv environ "REDIS_DB" "9")) (λ redis_db,
  let mdb_host := getenv environ "MDB_HOST" "" in
  rbind (py_int (getenv environ "MDB_PORT" "3306")) (λ mdb_port,
  let mdb_user := getenv environ "MDB_USER" "" in
  let mdb_pass := getenv environ "MDB_PASS" "" in
  let mdb_db := getenv environ "MDB_DB" "dispatcher-api2" in
  if is_empty api_token then Raise (RuntimeError "API_TOKEN is required")
  else
    Ok {| BIND_HOST := bind_host;
          BIND_PORT := bind_port;
          settings_conf :=
            {| API_TOKEN := api_token; PG_DSN := pg_dsn; REDIS_URL := redis_url;
               REDIS_DB := redis_db; MDB_HOST := mdb_host; MDB_PORT := mdb_port;
               MDB_USER := mdb_user; MDB_PASS := mdb_pass; MDB_DB := mdb_db |} |}))).

(** ** Sample requests and stores *)

Definition sample_conf : Config :=
  {| API_TOKEN := "secret";
     PG_DSN := "postgresql://numbers";
     REDIS_URL := "redis://cache";
     REDIS_DB := 9;
     MDB_HOST := "provisioning";
     MDB_PORT := 3306;
     MDB_USER := "fixer";
     MDB_PASS := "";
     MDB_DB := "dispatcher-api2" |}.

Definition sample_req : Request := {| headers := {["x-api-token" := "secret"]} |}.

Definition sample_body (dry : bool) : FixRequest :=
  {| input := "0412345678-681"; dry_run := dry; enp_target := NXP2 |}.

Definition reversed_body : FixRequest :=
  {| input := "0412345681-678"; dry_run := false; enp_target := NXP1 |}.

Definition sample_preview : Preview :=
  {| count := 4;
     expanded_targets := ["0412345678"; "0412345679"; "0412345680"; "0412345681"];
     expanded_dns := ["41412345678"; "41412345679"; "41412345680"; "41412345681"];
     expanded_redis_keys :=
       ["nprn:routing:41412345678"; "nprn:routing:41412345679";
        "nprn:routing:41412345680"; "nprn:routing:41412345681"] |}.

Definition sample_numbers : list numbers_row :=
  [ {| n_dn := "41412345679"; n_reservation_tstamp := "2024-03-01 10:00:00";
       n_product_id := 7; n_system_id := 120; n_nprn := 98001;
       n_outporting_tstamp := Some "2024-05-01 00:00:00";
       n_lastupdated_tstamp := "2024-05-01 00:00:00" |};
    {| n_dn := "41449999999"; n_reservation_tstamp := "2023-01-01 00:00:00";
       n_product_id := 3; n_system_id := 500; n_nprn := 98067;
       n_outporting_tstamp := None;
       n_lastupdated_tstamp := "2023-01-01 00:00:00" |} ].

Definition sample_pg : PgWorld :=
  {| pg_committed := sample_numbers; pg_working := sample_numbers;
     pg_now := "2026-01-01 12:00:00" |}.

Definition sample_cli : list cli_row :=
  [ {| c_id := 1; c_target_number := "0412345680"; c_target_system := "ims";
       c_tenant := "t1"; c_nprn := 98019; c_insert_date := "2024-02-02" |};
    {| c_id := 2; c_target_number := "0449999999"; c_target_system := "ims";
       c_tenant := "t2"; c_nprn := 98067; c_insert_date := "2024-02-03" |} ].


Definition sample_mdb (fault : option exn) : MdbWorld :=
  {| mdb_committed := sample_cli; mdb_working := sample_cli;
     mdb_execute_fault := fault |}.

(** An [int] for decimal literals, enough for the sample environment. *)
Definition sample_int (s : string) : result Z :=
  if Str.all Str.is_digit s && negb (is_empty s) then Ok (Str.int s)
  else Raise (ValueError "invalid literal for int() with base 10").

Definition sample_environ : gmap string string :=
  {[ "API_TOKEN" := "secret"; "MDB_HOST" := "provisioning"; "MDB_USER" := "fixer" ]}.

Definition sample_redis : RedisWorld :=
  {| redis_selected := 0;
     redis_dbs := {[ 9 := {[ "nprn:routing:41412345679" := "98001";
                              "nprn:routing:41449999999" := "98067" ]};
                     0 := {[ "nprn:routing:41412345679" := "kept" ]} ]} |}.

Definition sample_settings : Settings :=
  {| BIND_HOST := "0.0.0.0";
     BIND_PORT := 8000;
     settings_conf :=
       {| API_TOKEN := "secret"; PG_DSN := ""; REDIS_URL := ""; REDIS_DB := 9;
          MDB_HOST := "provisioning"; MDB_PORT := 3306; MDB_USER := "fixer";
          MDB_PASS := ""; MDB_DB := "dispatcher-api2" |} |}.

Definition anonymous_req : Request := {| headers := ∅ |}.

Definition sample_answer : gmap string pyval :=
  dict_lit ([("dry_run", VBool true); ("enp_target", VStr "NXP2")]
            ++ preview_items sample_preview ++ profile_items (ENP_MAP NXP2)).

(** ** Facts about the string primitives *)

Module StrFacts.
Import Str.

Lemma length_app (a b : string) :
  String.length (a +:+ b) = (String.length a + String.length b)%nat.
Proof. induction a as [|c a IH]; simpl; [done | by rewrite IH]. Qed.

Lemma len_app (a b : string) : len (a +:+ b) = len a + len b.
Proof. unfold len. rewrite length_app. lia. Qed.

Lemma len_nonneg (s : string) : 0 ≤ len s.
Proof. unfold len. lia. Qed.

Lemma all_filter f (s : string) : all f (filter f s) = true.
Proof.
  induction s as [|c s IH]; simpl; [done |].
  destruct (f c) eqn:E; simpl; [by rewrite E | done].
Qed.

Lemma filter_id f (s : string) : all f s = true → filter f s = s.
Proof.
  induction s as [|c s IH]; simpl; [done |].
  intros [Hc Hs]%andb_prop. rewrite Hc. by rewrite IH.
Qed.

Lemma all_app f (a b : string) : all f (a +:+ b) = all f a && all f b.
Proof.
  induction a as [|c a IH]; simpl; [done |].
  rewrite IH. by rewrite andb_assoc.
Qed.

Lemma length_replicate n c : String.length (replicate n c) = n.
Proof. induction n as [|n IH]; simpl; [done | by rewrite IH]. Qed.

Lemma all_replicate f n c : f c = true → all f (replicate n c) = true.
Proof. intros Hc. induction n as [|n IH]; simpl; [done | by rewrite Hc]. Qed.

Lemma split1_app c (a b : string) :
  contains c a = false → split1 c (a +:+ String c b) = [a; b].
Proof.
  induction a as [|x a IH]; simpl.
  - intros _. by rewrite Ascii.eqb_refl.
  - destruct (Ascii.eqb x c) eqn:E; [done |].
    intros H. by rewrite (IH H).
Qed.

(** Every string that contains the separator splits at its first occurrence,
    so the theorems on [start_s +:+ String "-" end_s] below cover every
    expression with a dash. *)
Lemma contains_split c (s : string) :
  contains c s = true →
  ∃ a b, s = a +:+ String c b ∧ contains c a = false.
Proof.
  induction s as [|x s IH]; simpl; [done |].
  destruct (Ascii.eqb x c) eqn:E.
  - intros _. apply Ascii.eqb_eq in E as ->. by exists EmptyString, s.
  - intros (a & b & -> & Ha)%IH. exists (String x a), b.
    split; [done |]. simpl. by rewrite E.
Qed.

Lemma contains_app_sep c (a b : string) : contains c (a +:+ String c b) = true.
Proof.
  induction a as [|x a IH]; simpl.
  - by rewrite Ascii.eqb_refl.
  - by destruct (Ascii.eqb x c).
Qed.

(** The pieces of a string around its first separator are determined. *)
Lemma first_sep_unique c (a a' b b' : string) :
  contains c a = false → contains c a' = false →
  a +:+ String c b = a' +:+ String c b' → a = a' ∧ b = b'.
Proof.
  intros Ha Ha' E.
  assert (H : split1 c (a +:+ String c b) = split1 c (a' +:+ String c b'))
    by (by rewrite E).
  rewrite !split1_app in H by done. by simplify_eq.
Qed.

Lemma code_digit_char d : 0 ≤ d ≤ 9 → code (digit_char d) = 48 + d.
Proof.
  intros Hd. unfold code, digit_char.
  rewrite N_ascii_embedding by lia. lia.
Qed.

Lemma is_digit_digit_char d : 0 ≤ d ≤ 9 → is_digit (digit_char d) = true.
Proof.
  intros Hd. unfold is_digit. rewrite code_digit_char by done.
  apply andb_true_intro. split; apply Z.leb_le; lia.
Qed.

Lemma is_digit_code c : is_digit c = true → 48 ≤ code c ≤ 57.
Proof.
  unfold is_digit. intros [H1 H2]%andb_prop.
  apply Z.leb_le in H1, H2. lia.
Qed.

Lemma int_acc_app acc (a b : string) :
  int_acc acc (a +:+ b) = int_acc (int_acc acc a) b.
Proof. revert acc. induction a as [|c a IH]; intros acc; simpl; [done | by rewrite IH]. Qed.

Lemma int_acc_zeros n : int_acc 0 (replicate n "0") = 0.
Proof. induction n as [|n IH]; simpl; [done | exact IH]. Qed.

Lemma int_zero_padded n (d : string) : int (replicate n "0" +:+ d) = int d.
Proof. unfold int. by rewrite int_acc_app, int_acc_zeros. Qed.

Lemma int_acc_lower acc (s : string) :
  all is_digit s = true → 0 ≤ acc → acc ≤ int_acc acc s.
Proof.
  revert acc. induction s as [|c s IH]; intros acc; simpl; [lia |].
  intros [Hc Hs]%andb_prop Hacc. apply is_digit_code in Hc.
  specialize (IH (10 * acc + (code c - 48)) Hs). lia.
Qed.

Lemma int_nonneg (s : string) : all is_digit s = true → 0 ≤ int s.
Proof. intros H. unfold int. by apply int_acc_lower. Qed.

Lemma digit_not_sign c :
  is_digit c = true → Ascii.eqb c "-" || Ascii.eqb c "+" = false.
Proof.
  intros H.
  destruct (Ascii.eqb_spec c "-") as [-> | _]; [by vm_compute in H |].
  destruct (Ascii.eqb_spec c "+") as [-> | _]; [by vm_compute in H | done].
Qed.

Lemma zfill_digits width (s : string) :
  all is_digit s = true →
  zfill width s = replicate (Z.to_nat (width - len s)) "0" +:+ s.
Proof.
  destruct s as [|c r]; simpl.
  - intros _. unfold zfill. simpl.
    generalize (Z.to_nat (width - len "")). intros n.
    induction n as [|n IH]; simpl; [done | by rewrite <- IH].
  - intros [Hc _]%andb_prop. unfold zfill.
    by rewrite (digit_not_sign _ Hc).
Qed.

End StrFacts.

(** ** Facts about decimal printing *)

Module DecimalFacts.
Import Str StrFacts.

Lemma int_snoc (a : string) c :
  int (a +:+ String c "") = 10 * int a + (code c - 48).
Proof. unfold int. by rewrite int_acc_app. Qed.

Lemma digits_all fuel n : 0 ≤ n → all is_digit (digits fuel n) = true.
Proof.
  revert n. induction fuel as [|f IH]; intros n Hn; simpl; [done |].
  destruct (Z.ltb_spec n 10).
  - simpl. rewrite is_digit_digit_char by lia. done.
  - rewrite all_app, IH by (apply Z.div_pos; lia). simpl.
    rewrite is_digit_digit_char; [done |].
    pose proof (Z.mod_pos_bound n 10). lia.
Qed.

Lemma digits_int fuel n :
  0 ≤ n < 10 ^ Z.of_nat fuel → int (digits fuel n) = n.
Proof.
  revert n. induction fuel as [|f IH]; intros n Hn.
  - simpl in *. unfold int. simpl. lia.
  - simpl. destruct (Z.ltb_spec n 10).
    + unfold int. simpl. rewrite code_digit_char by lia. lia.
    + rewrite int_snoc, code_digit_char
        by (pose proof (Z.mod_pos_bound n 10); lia).
      rewrite IH.
      * pose proof (Z.div_mod n 10). lia.
      * rewrite Nat2Z.inj_succ, Z.pow_succ_r in Hn by lia.
        split; [apply Z.div_pos; lia |].
        apply Z.div_lt_upper_bound; lia.
Qed.

Lemma digits_nonempty fuel n : fuel ≠ O → digits fuel n ≠ "".
Proof.
  destruct fuel as [|f]; [done |]. intros _. simpl.
  destruct (n <? 10); [done |].
  destruct (digits f (n / 10)); done.
Qed.

Lemma startswith_app_l p (a b : string) c :
  startswith (String p "") (String c a +:+ b) = startswith (String p "") (String c a).
Proof. simpl. by destruct (Ascii.eqb p c). Qed.

Lemma startswith_single p c (a : string) :
  startswith (String p "") (String c a) = Ascii.eqb p c.
Proof. simpl. by destruct (Ascii.eqb p c). Qed.

Lemma digit_char_zero d : 0 < d ≤ 9 → Ascii.eqb "0" (digit_char d) = false.
Proof.
  intros Hd. destruct (Ascii.eqb_spec "0" (digit_char d)) as [E|]; [|done].
  pose proof (code_digit_char d ltac:(lia)) as Hc. rewrite <- E in Hc.
  change (code "0") with 48 in Hc. lia.
Qed.

Lemma digits_no_leading_zero fuel n :
  0 < n < 10 ^ Z.of_nat fuel → startswith "0" (digits fuel n) = false.
Proof.
  revert n. induction fuel as [|f IH]; intros n Hn.
  - simpl in Hn. lia.
  - cbn [digits]. destruct (Z.ltb_spec n 10).
    + rewrite startswith_single. apply digit_char_zero. lia.
    + rewrite Nat2Z.inj_succ, Z.pow_succ_r in Hn by lia.
      assert (Hq : 0 < n / 10 < 10 ^ Z.of_nat f).
      { split; [apply Z.div_str_pos; lia | apply Z.div_lt_upper_bound; lia]. }
      specialize (IH _ Hq).
      destruct (digits f (n / 10)) as [|c a] eqn:E.
      * destruct f; [simpl in Hq; lia |]. by apply digits_nonempty in E.
      * rewrite startswith_app_l. exact IH.
Qed.

Lemma digits_length fuel n (w : nat) :
  0 ≤ n < 10 ^ Z.of_nat w → (1 ≤ w)%nat →
  (String.length (digits fuel n) ≤ w)%nat.
Proof.
  revert n w. induction fuel as [|f IH]; intros n w Hn Hw; simpl; [lia |].
  destruct (Z.ltb_spec n 10); [simpl; lia |].
  rewrite length_app. simpl.
  destruct w as [|w]; [lia |].
  rewrite Nat2Z.inj_succ, Z.pow_succ_r in Hn by lia.
  destruct w as [|w]; [simpl in Hn; lia |].
  assert (String.length (digits f (n / 10)) ≤ S w)%nat; [|lia].
  apply IH; [|lia].
  split; [apply Z.div_pos; lia | apply Z.div_lt_upper_bound; lia].
Qed.

Lemma fuel_enough n : 0 ≤ n → n < 10 ^ Z.of_nat (digits_fuel n).
Proof.
  intros Hn. unfold digits_fuel.
  rewrite Nat2Z.inj_succ, Z2Nat.id by apply Z.log2_nonneg.
  destruct (Z.eq_dec n 0) as [-> | Hne]; [done |].
  pose proof (Z.log2_spec n ltac:(lia)) as [_ Hlt].
  eapply Z.lt_le_trans; [exact Hlt |].
  apply Z.pow_le_mono_l. pose proof (Z.log2_nonneg n). lia.
Qed.

Lemma str_nonneg n : 0 ≤ n → str n = digits (digits_fuel n) n.
Proof. intros Hn. unfold str. by destruct (Z.ltb_spec n 0); [lia |]. Qed.

Lemma str_all n : 0 ≤ n → all is_digit (str n) = true.
Proof. intros Hn. rewrite str_nonneg by done. by apply digits_all. Qed.

Lemma str_int n : 0 ≤ n → int (str n) = n.
Proof.
  intros Hn. rewrite str_nonneg by done.
  apply digits_int. split; [done | by apply fuel_enough].
Qed.

Lemma str_decimal n : 0 ≤ n → is_decimal_of (str n) n.
Proof.
  intros Hn. repeat split.
  - rewrite str_nonneg by done. by apply digits_nonempty.
  - by apply str_all.
  - by apply str_int.
  - destruct (Z.eq_dec n 0) as [-> | Hne]; [by left | right].
    rewrite str_nonneg by done. apply digits_no_leading_zero.
    split; [lia | by apply fuel_enough].
Qed.

Lemma str_length n (w : nat) :
  0 ≤ n < 10 ^ Z.of_nat w → (1 ≤ w)%nat → (String.length (str n) ≤ w)%nat.
Proof.
  intros Hn Hw. rewrite str_nonneg by lia. by apply digits_length.
Qed.

End DecimalFacts.

(** ** Facts about range expansion *)

Module ExpandFacts.
Import Str StrFacts DecimalFacts.

(** On a stripped expression with a dash the two parts are the text before
    the first dash and the text after it, and the unpacking cannot fail. *)
Lemma expand_numbers_dash expr max_span (start_s end_s : string) :
  strip_whitespace expr = start_s +:+ String "-" end_s →
  contains "-" start_s = false →
  expand_numbers expr max_span =
    let start_digits := normalize_to_digits start_s in
    let end_digits := normalize_to_digits end_s in
    if is_empty start_digits || is_empty end_digits then Raise bad_range_format
    else
      let start_i := int start_digits in
      let end_i := int (end_full_spec start_digits end_digits) in
      if end_i <? start_i then Raise range_end_before_start
      else if end_i - start_i + 1 >? max_span then Raise (range_too_large max_span)
      else Ok ((λ n, zfill (len start_digits) (str n)) <$> range start_i (end_i + 1)).
Proof.
  intros Hs Hstart. unfold expand_numbers. rewrite Hs.
  rewrite contains_app_sep. cbn [negb].
  by rewrite split1_app.
Qed.

Lemma expand_numbers_no_dash expr max_span :
  contains "-" (strip_whitespace expr) = false →
  expand_numbers expr max_span = Ok [strip_whitespace expr].
Proof. intros H. unfold expand_numbers. by rewrite H. Qed.

Lemma range_lookup a b (k : nat) n :
  range a b !! k = Some n ↔ n = a + Z.of_nat k ∧ Z.of_nat k < b - a.
Proof. apply lookup_seqZ. Qed.

Lemma length_range a b : length (range a b) = Z.to_nat (b - a).
Proof. apply length_seqZ. Qed.

Lemma is_empty_normalize (s : string) :
  is_empty (normalize_to_digits s) = false → 1 ≤ len (normalize_to_digits s).
Proof.
  unfold len. destruct (normalize_to_digits s); simpl; [done | lia].
Qed.

Lemma normalize_all (s : string) : all is_digit (normalize_to_digits s) = true.
Proof. apply all_filter. Qed.

Lemma len_zero_padded width (d : string) :
  len (zero_padded width d) = Z.max width (len d).
Proof.
  unfold zero_padded. rewrite len_app. unfold len at 1.
  rewrite length_replicate. pose proof (len_nonneg d). lia.
Qed.


(** What a successful expansion of a dash expression tells. *)
Lemma expand_ok_inv expr max_span (start_s end_s : string) l :
  strip_whitespace expr = start_s +:+ String "-" end_s →
  contains "-" start_s = false →
  expand_numbers expr max_span = Ok l →
  let start_digits := normalize_to_digits start_s in
  let end_digits := normalize_to_digits end_s in
  let start_i := int start_digits in
  let end_i := int (end_full_spec start_digits end_digits) in
  1 ≤ len start_digits ∧ 1 ≤ len end_digits
  ∧ 0 ≤ start_i ≤ end_i ∧ end_i - start_i + 1 ≤ max_span
  ∧ l = (λ n, zero_padded (len start_digits) (str n)) <$> range start_i (end_i + 1).
Proof.
  intros Hs Hstart. rewrite (expand_numbers_dash _ _ _ _ Hs Hstart). cbv zeta.
  destruct (is_empty (normalize_to_digits start_s)) eqn:E1; [done |].
  destruct (is_empty (normalize_to_digits end_s)) eqn:E2; [done |]. cbn [orb].
  destruct (Z.ltb_spec (int (end_full_spec (normalize_to_digits start_s)
                                           (normalize_to_digits end_s)))
                       (int (normalize_to_digits start_s))); [done |].
  destruct (Z.gtb_spec
    (int (end_full_spec (normalize_to_digits start_s) (normalize_to_digits end_s))
     - int (normalize_to_digits start_s) + 1) max_span); [done |].
  intros [= <-].
  pose proof (int_nonneg _ (normalize_all start_s)) as Hnn.
  repeat split; try lia; try by apply is_empty_normalize.
  apply list_eq. intros k. rewrite !list_lookup_fmap.
  destruct (range _ _ !! k) as [n|] eqn:E; [|done]. simpl.
  apply range_lookup in E as [-> _].
  f_equal. apply zfill_digits, str_all. lia.
Qed.

End ExpandFacts.

Section RangeExpander.
Import Str StrFacts DecimalFacts ExpandFacts.

(** C1. On a stripped expression [start_s-end_s] (split at the first dash)
    that passes validation, the end is completed with the leading characters
    of the start digits when it is shorter, and the result lists, for
    [k = 0, 1, ...], the decimal string of [start_i + k] padded with zeros
    on the left to the width of the start digits, up to [end_i] inclusive;
    ["0412345678-681"] expands to the four numbers 0412345678..0412345681. *)
Theorem expand_numbers_range_result :
  (∀ expr max_span (start_s end_s : string) (l : list string),
     strip_whitespace expr = start_s +:+ String "-" end_s →
     contains "-" start_s = false →
     expand_numbers expr max_span = Ok l →
     let start_digits := normalize_to_digits start_s in
     let end_digits := normalize_to_digits end_s in
     let end_full := end_full_spec start_digits end_digits in
     let start_i := int start_digits in
     let end_i := int end_full in
     length l = Z.to_nat (end_i - start_i + 1)
     ∧ ∀ k : nat, (k < length l)%nat →
         ∃ d, is_decimal_of d (start_i + Z.of_nat k)
              ∧ l !! k = Some (zero_padded (len start_digits) d))
  ∧ expand_numbers "0412345678-681" 100
    = Ok ["0412345678"; "0412345679"; "0412345680"; "0412345681"].
Proof.
  split; [| by vm_compute].
  intros expr max_span start_s end_s l Hs Hstart Hok. cbv zeta.
  destruct (expand_ok_inv _ _ _ _ _ Hs Hstart Hok) as (_ & _ & Hle & _ & ->).
  rewrite length_fmap, length_range.
  split; [f_equal; lia |].
  intros k Hk. exists (str (int (normalize_to_digits start_s) + Z.of_nat k)).
  split; [apply str_decimal; lia |].
  rewrite list_lookup_fmap.
  set (a := int (normalize_to_digits start_s)) in *.
  set (b := int (end_full_spec _ _)) in *.
  assert (E : range a (b + 1) !! k = Some (a + Z.of_nat k)).
  { apply range_lookup. split; [done | lia]. }
  by rewrite E.
Qed.

(** C3, as the code has it.  On a dash expression that expands, every
    element is a digit string at least as wide as the start digits, and
    exactly as wide when [end_i < 10 ^ width]; there are at most [max_span]
    elements; their integer values ascend strictly. *)
Theorem expand_numbers_result_shape expr max_span (start_s end_s : string)
    (l : list string) :
  strip_whitespace expr = start_s +:+ String "-" end_s →
  contains "-" start_s = false →
  expand_numbers expr max_span = Ok l →
  let start_digits := normalize_to_digits start_s in
  let end_i := int (end_full_spec start_digits (normalize_to_digits end_s)) in
  let width := len start_digits in
  Forall (λ e, all is_digit e = true ∧ width ≤ len e) l
  ∧ (end_i < 10 ^ width → Forall (λ e, len e = width) l)
  ∧ Z.of_nat (length l) ≤ max_span
  ∧ (∀ (i j : nat) (ei ej : string),
       (i < j)%nat → l !! i = Some ei → l !! j = Some ej → int ei < int ej).
Proof.
  intros Hs Hstart Hok. cbv zeta.
  destruct (expand_ok_inv _ _ _ _ _ Hs Hstart Hok)
    as (Hw & _ & Hle & Hspan & ->).
  set (sd := normalize_to_digits start_s) in *.
  set (end_i := int (end_full_spec sd (normalize_to_digits end_s))) in *.
  assert (Hel : ∀ (k : nat) e,
    ((λ n, zero_padded (len sd) (str n)) <$> range (int sd) (end_i + 1)) !! k = Some e →
    e = zero_padded (len sd) (str (int sd + Z.of_nat k))
    ∧ 0 ≤ int sd + Z.of_nat k ≤ end_i).
  { intros k e. rewrite list_lookup_fmap.
    destruct (range _ _ !! k) as [n|] eqn:E; [|done]. simpl. intros [= <-].
    apply range_lookup in E as [-> Hk]. split; [done | lia]. }
  repeat split.
  - apply Forall_lookup. intros k e [-> Hk]%Hel. split.
    + unfold zero_padded. rewrite all_app, all_replicate by done.
      apply str_all. lia.
    + rewrite len_zero_padded. lia.
  - intros Hend. apply Forall_lookup. intros k e [-> Hk]%Hel.
    rewrite len_zero_padded.
    assert (len (str (int sd + Z.of_nat k)) ≤ len sd); [|lia].
    unfold len in *. apply inj_le, str_length; lia.
  - rewrite length_fmap, length_range. lia.
  - intros i j ei ej Hij [-> Hi]%Hel [-> Hj]%Hel.
    unfold zero_padded. rewrite !int_zero_padded, !str_int by lia. lia.
Qed.


End RangeExpander.

(** The claim of C3 on widths fails when the end has more digits than the
    start: ["99-101"] expands to ["99"; "100"; "101"], and the width of the
    start is 2. *)
Lemma expand_numbers_width_counterexample :
  ¬ (∀ l, expand_numbers "99-101" 100 = Ok l →
          Forall (λ e, Str.len e = Str.len (normalize_to_digits "99")) l).
Proof.
  intros H. specialize (H ["99"; "100"; "101"] ltac:(by vm_compute)).
  apply Forall_cons in H as [_ H]. apply Forall_cons in H as [H _].
  by vm_compute in H.
Qed.

Section NumberNormalizer.
Import Str StrFacts DecimalFacts ExpandFacts.

Lemma startswith_drop (p s : string) :
  startswith p s = true → s = p +:+ drop (String.length p) s.
Proof.
  revert s. induction p as [|a p IH]; intros s; [done |].
  destruct s as [|b s]; [done |]. cbn [startswith String.length drop].
  intros [Hab Hp]%andb_prop. apply Ascii.eqb_eq in Hab as ->.
  simpl. f_equal. by apply IH.
Qed.

Lemma filter_app f (a b : string) : filter f (a +:+ b) = filter f a +:+ filter f b.
Proof.
  induction a as [|c a IH]; simpl; [done |].
  destruct (f c); simpl; by rewrite IH.
Qed.

(** C2. Stripping keeps the digits, in order, and nothing else.  A number
    whose digits are ten and start with 0 gives [dn = "41" + digits[1:]] and
    [target = digits]; one whose digits are eleven and start with 41 gives
    [dn = digits] and [target = "0" + digits[2:]]; every other number is
    refused with the unsupported-format error that carries the input. *)
Theorem to_dn_and_target_cases :
  (∀ a b : string,
     normalize_to_digits (a +:+ b) = normalize_to_digits a +:+ normalize_to_digits b)
  ∧ (∀ c, normalize_to_digits (String c "") = if is_digit c then String c "" else "")
  ∧ ∀ number,
      let digits := normalize_to_digits number in
      (len digits = 10 ∧ startswith "0" digits = true →
         to_dn_and_target number = Ok ("41" +:+ drop 1 digits, digits))
      ∧ (len digits = 11 ∧ startswith "41" digits = true →
         to_dn_and_target number = Ok (digits, "0" +:+ drop 2 digits))
      ∧ (¬ (len digits = 10 ∧ startswith "0" digits = true) →
         ¬ (len digits = 11 ∧ startswith "41" digits = true) →
         to_dn_and_target number
         = Raise (HTTPException 400 ("Unsupported number format: " +:+ number))).
Proof.
  split; [apply filter_app |].
  split; [intros c; unfold normalize_to_digits; simpl; by destruct (is_digit c) |].
  intros number. cbv zeta. unfold to_dn_and_target, unsupported_number_format.
  set (digits := normalize_to_digits number).
  destruct (Z.eqb_spec (len digits) 10) as [E10 | N10];
    destruct (startswith "0" digits) eqn:S0; cbn [andb];
    destruct (Z.eqb_spec (len digits) 11) as [E11 | N11];
    destruct (startswith "41" digits) eqn:S41; cbn [andb];
    repeat split; try done; try lia; intros; intuition (try lia; try congruence).
Qed.

(** C6. A string of ten digits that starts with 0 is classified with itself
    as target, and ["0" + dn[2:]] gives it back; whenever the
    classification succeeds, [dn = "41" + target[1:]] and
    [target = "0" + dn[2:]] both hold. *)
Theorem to_dn_and_target_round_trip :
  (∀ s : string,
     len s = 10 → all is_digit s = true → startswith "0" s = true →
     ∃ dn, to_dn_and_target s = Ok (dn, s) ∧ "0" +:+ drop 2 dn = s)
  ∧ (∀ (number dn target : string),
       to_dn_and_target number = Ok (dn, target) →
       dn = "41" +:+ drop 1 target ∧ target = "0" +:+ drop 2 dn).
Proof.
  split.
  - intros s Hlen Hdig H0. unfold to_dn_and_target, normalize_to_digits.
    rewrite (filter_id _ _ Hdig), Hlen, H0. cbn [Z.eqb Pos.eqb andb].
    eexists. split; [done |]. cbn [String.append drop].
    by rewrite (startswith_drop "0" s H0) at 2.
  - intros number dn target. unfold to_dn_and_target.
    set (raw := normalize_to_digits number).
    destruct (len raw =? 10); cbn [andb].
    + destruct (startswith "0" raw) eqn:H0.
      * intros [= <- <-]. split; [done |]. cbn [String.append drop].
        by apply (startswith_drop "0").
      * destruct (len raw =? 11); cbn [andb]; [| done].
        destruct (startswith "41" raw) eqn:H41; [| done].
        intros [= <- <-]. split; [| done]. cbn [String.append drop].
        by apply (startswith_drop "41").
    + destruct (len raw =? 11); cbn [andb]; [| done].
      destruct (startswith "41" raw) eqn:H41; [| done].
      intros [= <- <-]. split; [| done]. cbn [String.append drop].
      by apply (startswith_drop "41").
Qed.

(** C10. When the stripped expression has no dash, the expander returns it
    as the only element whatever the bound, and the preview can fail only
    with the unsupported-format error, which is none of the range errors. *)
Theorem expand_no_dash_single expr :
  contains "-" (strip_whitespace expr) = false →
  (∀ max_span, expand_numbers expr max_span = Ok [strip_whitespace expr])
  ∧ (∀ e, expand_preview expr = Raise e →
          e = unsupported_number_format (strip_whitespace expr)
          ∧ e ≠ bad_range_format ∧ e ≠ range_end_before_start
          ∧ ∀ max_span, e ≠ range_too_large max_span).
Proof.
  intros Hno. split; [intros m; by apply expand_numbers_no_dash |].
  intros e. unfold expand_preview.
  rewrite (expand_numbers_no_dash _ _ Hno). cbn [rbind classify_all].
  unfold to_dn_and_target.
  destruct (_ && _); [done |]. destruct (_ && _); [done |].
  cbn [rbind]. intros [= <-]. split; [done |].
  unfold unsupported_number_format, bad_range_format, range_end_before_start,
    range_too_large.
  repeat split; try discriminate; intros m; discriminate.
Qed.

End NumberNormalizer.

(** ** The operations *)

Section Operations.
Context {W : Type} (h : Handler W).

Lemma fix_enp_invalid conf req body e :
  require_token conf req = Ok tt →
  expand_preview (input body) = Raise e →
  fix_enp conf req body = Throw e.
Proof.
  intros Ht He. unfold fix_enp. by rewrite Ht, He.
Qed.

Lemma fix_nprn_invalid conf req body e :
  require_token conf req = Ok tt →
  expand_preview (input body) = Raise e →
  fix_nprn conf req body = Throw e.
Proof.
  intros Ht He. unfold fix_nprn. by rewrite Ht, He.
Qed.

Lemma fix_disp_invalid conf req body e :
  require_token conf req = Ok tt →
  expand_preview (input body) = Raise e →
  fix_disp conf req body = Throw e.
Proof.
  intros Ht He. unfold fix_disp. by rewrite Ht, He.
Qed.

Lemma unauthorized_no_call conf req
    (op : Config → Request → FixRequest → Prog (gmap string pyval)) body :
  op ∈ [fix_enp; fix_nprn; fix_disp] →
  require_token conf req ≠ Ok tt →
  ∃ e, op conf req body = Throw e.
Proof.
  intros Hop Ht.
  destruct (require_token conf req) as [[]|e] eqn:E; [done |].
  exists e. set_unfold. destruct Hop as [-> | [-> | [-> | []]]].
  - unfold fix_enp. by rewrite E.
  - unfold fix_nprn. by rewrite E.
  - unfold fix_disp. by rewrite E.
Qed.

(** C5. When the preview of the input fails, each of the three operations
    makes no store call and leaves the stores as they are, whatever the
    stores would answer; a request that passed the token check receives the
    preview's error. *)
Theorem invalid_input_no_store_access conf req body e (w : W) :
  expand_preview (input body) = Raise e →
  Forall (λ op : Config → Request → FixRequest → Prog (gmap string pyval),
            (run h (op conf req body) w).2 = []
            ∧ (run h (op conf req body) w).1.2 = w
            ∧ (require_token conf req = Ok tt →
               (run h (op conf req body) w).1.1 = Raise e))
         [fix_enp; fix_nprn; fix_disp].
Proof.
  intros He. apply Forall_forall. intros op Hop.
  destruct (require_token conf req) as [[]|e'] eqn:Ht.
  - assert (op conf req body = Throw e) as ->; [| done].
    set_unfold. destruct Hop as [-> | [-> | [-> | []]]];
      [by apply fix_enp_invalid | by apply fix_nprn_invalid | by apply fix_disp_invalid].
  - destruct (unauthorized_no_call conf req op body Hop) as [e'' ->]; [by rewrite Ht |].
    done.
Qed.

(** C7. A dry run of [fix_enp] on a valid input makes no store call, leaves
    the stores as they are, and answers the preview fields together with the
    identifiers of the requested profile: 500 and 98067 for NXP1, 510 and
    98019 for NXP2. *)
Theorem fix_enp_dry_run conf req body prev (w : W) :
  require_token conf req = Ok tt →
  expand_preview (input body) = Ok prev →
  dry_run body = true →
  ∃ d : gmap string pyval,
    run h (fix_enp conf req body) w = (Ok d, w, [])
    ∧ d !! "dry_run" = Some (VBool true)
    ∧ d !! "enp_target" = Some (VStr (enp_name (enp_target body)))
    ∧ d !! "system_id"
      = Some (VInt (match enp_target body with NXP1 => 500 | NXP2 => 510 end))
    ∧ d !! "nprn"
      = Some (VInt (match enp_target body with NXP1 => 98067 | NXP2 => 98019 end))
    ∧ d !! "count" = Some (VInt (count prev))
    ∧ d !! "expanded_targets" = Some (VStrs (expanded_targets prev))
    ∧ d !! "expanded_dns" = Some (VStrs (expanded_dns prev))
    ∧ d !! "expanded_redis_keys" = Some (VStrs (expanded_redis_keys prev)).
Proof.
  intros Ht Hp Hd. unfold fix_enp. rewrite Ht, Hp, Hd.
  eexists. split; [reflexivity |].
  destruct (enp_target body); repeat split; by vm_compute.
Qed.

End Operations.

Section LiveOperations.

Lemma is_empty_false (s : string) : s ≠ "" → is_empty s = false.
Proof. by destruct s. Qed.

Lemma pg_apply_lookup now sid np dns (tbl : list numbers_row) (i : nat) r :
  tbl !! i = Some r →
  (pg_apply now (UpdateNumbers sid np dns) tbl).1 !! i
  = Some (if bool_decide (n_dn r ∈ dns) then update_numbers_row now sid np r else r).
Proof. intros Hi. simpl. by rewrite list_lookup_fmap, Hi. Qed.

(** C9. A live [fix_enp] that reaches the store issues, right after
    connecting, the one update built from the profile and the expanded dns.
    On a store that does not fail the calls are connect, update, commit and
    close, and afterwards every row whose [dn] is among the expanded ones has
    [product_id] 1 (so it kept its [product_id] only if that was 1 already),
    with the profile's identifiers, while every other row is as before. *)
Theorem fix_enp_live_sets_product_id conf req body prev :
  require_token conf req = Ok tt →
  expand_preview (input body) = Ok prev →
  dry_run body = false →
  PG_DSN conf ≠ "" →
  let cfg := ENP_MAP (enp_target body) in
  let dns := expanded_dns prev in
  let update := PgExecute (UpdateNumbers (system_id cfg) (nprn cfg) dns) in
  (∀ W (h : Handler W) (w w1 : W),
     h (PgConnect (PG_DSN conf)) w = (Ok tt, w1) →
     ∃ rest, (run h (fix_enp conf req body) w).2
             = PgConnect (PG_DSN conf) :: update :: rest)
  ∧ ∀ w : PgWorld,
      pg_working w = pg_committed w →
      let out := run pg_handler (fix_enp conf req body) w in
      out.2 = [PgConnect (PG_DSN conf); update; PgCommit; PgClose]
      ∧ ∀ (i : nat) r,
          pg_committed w !! i = Some r →
          ∃ r', pg_committed out.1.2 !! i = Some r'
                ∧ (n_dn r ∈ dns →
                   n_product_id r' = 1
                   ∧ n_system_id r' = system_id cfg ∧ n_nprn r' = nprn cfg
                   ∧ (n_product_id r' = n_product_id r → n_product_id r = 1))
                ∧ (n_dn r ∉ dns → r' = r).
Proof.
  intros Ht Hp Hd Hdsn. cbv zeta.
  assert (Hfix : fix_enp conf req body
    = (updated_dns ← (_ ← call (PgConnect (PG_DSN conf));
                      pg_conn_exit (call (PgExecute
                        (UpdateNumbers (system_id (ENP_MAP (enp_target body)))
                                       (nprn (ENP_MAP (enp_target body)))
                                       (expanded_dns prev)))));
       Ret (dict_lit ([("dry_run", VBool false);
                       ("enp_target", VStr (enp_name (enp_target body)))]
                      ++ preview_items prev ++ profile_items (ENP_MAP (enp_target body))
                      ++ [("updated_dns", VStrs updated_dns)])))).
  { unfold fix_enp, pg_conn. by rewrite Ht, Hp, Hd, (is_empty_false _ Hdsn). }
  rewrite Hfix. split.
  - intros W h w w1 Hc. cbn. rewrite Hc. cbn.
    destruct (h (PgExecute _) w1) as [[x|e] w2]; cbn;
      repeat (match goal with |- context [h ?c ?w] => destruct (h c w) as [[?|?] ?]; cbn end);
      eauto.
  - intros w Hw. cbn. split; [done |].
    intros i r Hi. rewrite Hw, list_lookup_fmap, Hi. cbn.
    eexists. split; [done |].
    case_bool_decide; split; intros ?; done.
Qed.


End LiveOperations.

(** ** The theorems at sample inputs *)


Lemma expand_numbers_range_result_witness :
  strip_whitespace "0412345678-681" = "0412345678" +:+ String "-" "681"
  ∧ Str.contains "-" "0412345678" = false
  ∧ ∃ d, is_decimal_of d 412345679
         ∧ ["0412345678"; "0412345679"; "0412345680"; "0412345681"] !! 1%nat
           = Some (zero_padded 10 d).
Proof.
  assert (Hs : strip_whitespace "0412345678-681" = "0412345678" +:+ String "-" "681")
    by (vm_compute; reflexivity).
  assert (Hd : Str.contains "-" "0412345678" = false) by (vm_compute; reflexivity).
  split; [exact Hs |]. split; [exact Hd |].
  exact (proj2 (proj1 expand_numbers_range_result "0412345678-681" 100
                  "0412345678" "681" _ Hs Hd (proj2 expand_numbers_range_result))
               1%nat ltac:(vm_compute; lia)).
Defined.

Lemma expand_numbers_result_shape_witness :
  strip_whitespace "0412345678-681" = "0412345678" +:+ String "-" "681"
  ∧ Str.contains "-" "0412345678" = false
  ∧ expand_numbers "0412345678-681" 100
    = Ok ["0412345678"; "0412345679"; "0412345680"; "0412345681"]
  ∧ Forall (λ e, Str.len e = 10)
           ["0412345678"; "0412345679"; "0412345680"; "0412345681"].
Proof.
  assert (Hs : strip_whitespace "0412345678-681" = "0412345678" +:+ String "-" "681")
    by (vm_compute; reflexivity).
  assert (Hd : Str.contains "-" "0412345678" = false) by (vm_compute; reflexivity).
  assert (Hok : expand_numbers "0412345678-681" 100
                = Ok ["0412345678"; "0412345679"; "0412345680"; "0412345681"])
    by (vm_compute; reflexivity).
  split; [exact Hs |]. split; [exact Hd |]. split; [exact Hok |].
  destruct (expand_numbers_result_shape _ _ _ _ _ Hs Hd Hok) as (_ & Hwidth & _).
  apply Hwidth. vm_compute. reflexivity.
Defined.


Lemma to_dn_and_target_round_trip_witness :
  Str.len "0412345678" = 10
  ∧ Str.all Str.is_digit "0412345678" = true
  ∧ Str.startswith "0" "0412345678" = true
  ∧ ∃ dn, to_dn_and_target "0412345678" = Ok (dn, "0412345678")
          ∧ "0" +:+ Str.drop 2 dn = "0412345678".
Proof.
  split; [vm_compute; reflexivity |].
  split; [vm_compute; reflexivity |]. split; [vm_compute; reflexivity |].
  apply (proj1 to_dn_and_target_round_trip "0412345678"); vm_compute; reflexivity.
Defined.

Lemma expand_no_dash_single_witness :
  Str.contains "-" (strip_whitespace " ab c") = false
  ∧ expand_numbers " ab c" 0 = Ok ["abc"]
  ∧ expand_numbers "" 0 = Ok [""].
Proof.
  assert (H1 : Str.contains "-" (strip_whitespace " ab c") = false)
    by (vm_compute; reflexivity).
  assert (H2 : Str.contains "-" (strip_whitespace "") = false)
    by (vm_compute; reflexivity).
  split; [exact H1 |]. split.
  - exact (proj1 (expand_no_dash_single " ab c" H1) 0).
  - exact (proj1 (expand_no_dash_single "" H2) 0).
Defined.

Lemma invalid_input_no_store_access_witness :
  expand_preview (input reversed_body) = Raise range_end_before_start
  ∧ Forall (λ op : Config → Request → FixRequest → Prog (gmap string pyval),
              (run mdb_handler (op sample_conf sample_req reversed_body)
                   (sample_mdb None)).2 = [])
           [fix_enp; fix_nprn; fix_disp].
Proof.
  assert (H : expand_preview (input reversed_body) = Raise range_end_before_start)
    by (vm_compute; reflexivity).
  split; [exact H |].
  eapply Forall_impl.
  - exact (invalid_input_no_store_access mdb_handler sample_conf sample_req
             reversed_body _ (sample_mdb None) H).
  - intros op Hop. exact (proj1 Hop).
Defined.

Lemma fix_enp_dry_run_witness :
  require_token sample_conf sample_req = Ok tt
  ∧ expand_preview (input (sample_body true)) = Ok sample_preview
  ∧ dry_run (sample_body true) = true
  ∧ ∃ d : gmap string pyval,
      run pg_handler (fix_enp sample_conf sample_req (sample_body true)) sample_pg
      = (Ok d, sample_pg, [])
      ∧ d !! "system_id" = Some (VInt 510) ∧ d !! "nprn" = Some (VInt 98019).
Proof.
  assert (Ht : require_token sample_conf sample_req = Ok tt) by (vm_compute; reflexivity).
  assert (Hp : expand_preview (input (sample_body true)) = Ok sample_preview)
    by (vm_compute; reflexivity).
  split; [exact Ht |]. split; [exact Hp |]. split; [reflexivity |].
  destruct (fix_enp_dry_run pg_handler sample_conf sample_req (sample_body true)
              sample_preview sample_pg Ht Hp eq_refl)
    as (d & Hrun & _ & _ & Hsid & Hnprn & _).
  exists d. split; [exact Hrun |]. split; [exact Hsid | exact Hnprn].
Defined.

Lemma fix_enp_live_sets_product_id_witness :
  require_token sample_conf sample_req = Ok tt
  ∧ expand_preview (input (sample_body false)) = Ok sample_preview
  ∧ PG_DSN sample_conf ≠ ""
  ∧ ∃ r', pg_committed
            (run pg_handler (fix_enp sample_conf sample_req (sample_body false))
                 sample_pg).1.2 !! 0%nat = Some r'
          ∧ n_product_id r' = 1.
Proof.
  assert (Ht : require_token sample_conf sample_req = Ok tt) by (vm_compute; reflexivity).
  assert (Hp : expand_preview (input (sample_body false)) = Ok sample_preview)
    by (vm_compute; reflexivity).
  assert (Hdsn : PG_DSN sample_conf ≠ "") by discriminate.
  split; [exact Ht |]. split; [exact Hp |]. split; [exact Hdsn |].
  destruct (fix_enp_live_sets_product_id sample_conf sample_req (sample_body false)
              sample_preview Ht Hp eq_refl Hdsn) as [_ Hstore].
  destruct (Hstore sample_pg eq_refl) as [_ Hrows].
  destruct (Hrows 0%nat _ eq_refl) as (r' & Hr' & Hin & _).
  exists r'. split; [exact Hr' |].
  apply Hin. apply list_elem_of_further, list_elem_of_here.
Defined.


(** ** Further sample runs *)

Example expand_single_number :
  expand_numbers "0412345678" 100 = Ok ["0412345678"].
Proof. by vm_compute. Qed.

Example classify_eight_digits :
  to_dn_and_target "98765432"
  = Raise (HTTPException 400 "Unsupported number format: 98765432").
Proof. by vm_compute. Qed.

Example classify_dn :
  to_dn_and_target "+41 44 123 45 67" = Ok ("41441234567", "0441234567").
Proof. by vm_compute. Qed.

Example fix_disp_live_sample :
  let out := run mdb_handler (fix_disp sample_conf sample_req (sample_body false))
                 (sample_mdb None) in
  out.2 = [MdbConnect "provisioning" 3306 "fixer" "" "dispatcher-api2" false;
           MdbQuery (SelectCliProvisioning (expanded_targets sample_preview));
           MdbExecute (DeleteCliProvisioning (expanded_targets sample_preview));
           MdbCommit; MdbClose]
  ∧ c_id <$> mdb_committed out.1.2 = [2].
Proof. by vm_compute. Qed.

Example fix_nprn_unauthorized :
  fix_nprn sample_conf {| headers := ∅ |} (sample_body false)
  = Throw (HTTPException 401 "Unauthorized").
Proof. by vm_compute. Qed.

(** ** Further properties of the number logic *)

Section NumberLogic.
Import Str StrFacts DecimalFacts ExpandFacts.

Lemma filter_filter f (s : string) : filter f (filter f s) = filter f s.
Proof. apply filter_id, all_filter. Qed.

Lemma length_filter_le f (s : string) :
  (String.length (filter f s) ≤ String.length s)%nat.
Proof.
  induction s as [|c s IH]; simpl; [done |].
  destruct (f c); simpl; lia.
Qed.

Lemma filter_length_eq f (s : string) :
  String.length (filter f s) = String.length s → all f s = true.
Proof.
  induction s as [|c s IH]; simpl; [done |].
  destruct (f c) eqn:E; simpl.
  - intros [= H]. by rewrite IH.
  - pose proof (length_filter_le f s). lia.
Qed.

Lemma all_drop f n (s : string) : all f s = true → all f (drop n s) = true.
Proof.
  revert s. induction n as [|n IH]; intros [|c s]; simpl; try done.
  intros [_ Hs]%andb_prop. by apply IH.
Qed.

Lemma all_take f n (s : string) : all f s = true → all f (take n s) = true.
Proof.
  revert s. induction n as [|n IH]; intros [|c s]; simpl; try done.
  intros [Hc Hs]%andb_prop. rewrite Hc. simpl. by apply IH.
Qed.

Lemma length_take n (s : string) :
  (n ≤ String.length s)%nat → String.length (take n s) = n.
Proof.
  revert s. induction n as [|n IH]; intros [|c s]; simpl; try done; try lia.
  intros H. rewrite IH; lia.
Qed.

Lemma digit_not_space c : is_digit c = true → is_space c = false.
Proof.
  intros [H1 H2]%is_digit_code. unfold is_space.
  repeat (apply orb_false_intro); try (apply andb_false_iff).
  - right. apply Z.leb_gt. lia.
  - right. apply Z.leb_gt. lia.
  - apply Z.eqb_neq. lia.
  - apply Z.eqb_neq. lia.
Qed.

Lemma all_digit_no_space (s : string) :
  all is_digit s = true → all (λ c, negb (is_space c)) s = true.
Proof.
  induction s as [|c s IH]; simpl; [done |].
  intros [Hc Hs]%andb_prop. by rewrite (digit_not_space _ Hc), IH.
Qed.

Lemma all_digit_no_dash (s : string) :
  all is_digit s = true → contains "-" s = false.
Proof.
  induction s as [|c s IH]; cbn [all contains]; [done |].
  intros [Hc Hs]%andb_prop.
  pose proof (digit_not_sign _ Hc) as [Hd _]%orb_false_elim.
  rewrite Hd. by apply IH.
Qed.

(** Everything a successful classification tells about its two results. *)
Lemma classify_inv (number dn target : string) :
  to_dn_and_target number = Ok (dn, target) →
  len dn = 11 ∧ startswith "41" dn = true ∧ all is_digit dn = true
  ∧ len target = 10 ∧ startswith "0" target = true ∧ all is_digit target = true
  ∧ dn = "41" +:+ drop 1 target ∧ target = "0" +:+ drop 2 dn
  ∧ (normalize_to_digits number = dn ∨ normalize_to_digits number = target).
Proof.
  unfold to_dn_and_target.
  pose proof (normalize_all number) as Hall.
  set (raw := normalize_to_digits number) in *.
  assert (H10 : len raw = 10 → startswith "0" raw = true →
                len ("41" +:+ drop 1 raw) = 11
                ∧ all is_digit ("41" +:+ drop 1 raw) = true
                ∧ raw = "0" +:+ drop 1 raw).
  { intros Hl H0. pose proof (startswith_drop "0" raw H0) as E.
    destruct raw as [|c r]; [done |]. cbn [String.length drop] in *.
    unfold len in *. cbn [String.append String.length all] in *.
    apply andb_prop in Hall as [_ Hr]. rewrite Hr.
    split; [lia |]. split; [reflexivity | exact E]. }
  assert (H11 : len raw = 11 → startswith "41" raw = true →
                len ("0" +:+ drop 2 raw) = 10
                ∧ all is_digit ("0" +:+ drop 2 raw) = true
                ∧ raw = "41" +:+ drop 2 raw).
  { intros Hl H0. pose proof (startswith_drop "41" raw H0) as E.
    destruct raw as [|c1 [|c2 r]]; [done | done |]. cbn [String.length drop] in *.
    unfold len in *. cbn [String.append String.length all] in *.
    apply andb_prop in Hall as [_ [_ Hr]%andb_prop]. rewrite Hr.
    split; [lia |]. split; [reflexivity | exact E]. }
  destruct (Z.eqb_spec (len raw) 10) as [E10 | N10]; cbn [andb].
  - destruct (startswith "0" raw) eqn:S0.
    + intros [= <- <-]. destruct (H10 E10 eq_refl) as (? & ? & ?).
      repeat split; try done. by right.
    + destruct (Z.eqb_spec (len raw) 11); [lia | done].
  - destruct (Z.eqb_spec (len raw) 11) as [E11 | N11]; cbn [andb]; [| done].
    destruct (startswith "41" raw) eqn:S41; [| done].
    intros [= <- <-]. destruct (H11 E11 eq_refl) as (? & ? & ?).
    repeat split; try done. by left.
Qed.

(** X1. Stripping to digits is idempotent, never lengthens its input, and
    leaves exactly the all-digit strings unchanged. *)
Theorem normalize_to_digits_idempotent (s : string) :
  normalize_to_digits (normalize_to_digits s) = normalize_to_digits s
  ∧ len (normalize_to_digits s) ≤ len s
  ∧ (normalize_to_digits s = s ↔ all is_digit s = true).
Proof.
  split; [apply filter_filter |]. split.
  - unfold len. apply inj_le, length_filter_le.
  - split; [| apply filter_id].
    intros E. apply filter_length_eq. unfold normalize_to_digits in E. by rewrite E.
Qed.

(** X2. A successful classification yields a [dn] of eleven digits that starts
    with 41 and a target of ten digits that starts with 0. *)
Theorem to_dn_and_target_shape (number dn target : string) :
  to_dn_and_target number = Ok (dn, target) →
  len dn = 11 ∧ startswith "41" dn = true ∧ all is_digit dn = true
  ∧ len target = 10 ∧ startswith "0" target = true ∧ all is_digit target = true.
Proof. intros H. destruct (classify_inv _ _ _ H) as (?&?&?&?&?&?&_). done. Qed.

(** X3. The classification is a fixed point: classifying the [dn] it
    produced, or the target it produced, gives the same pair again. *)
Theorem to_dn_and_target_canonical (number dn target : string) :
  to_dn_and_target number = Ok (dn, target) →
  to_dn_and_target dn = Ok (dn, target)
  ∧ to_dn_and_target target = Ok (dn, target).
Proof.
  intros H.
  destruct (classify_inv _ _ _ H) as (Ldn & Sdn & Adn & Lt & St & At & Edn & Et & _).
  unfold to_dn_and_target, normalize_to_digits.
  rewrite (filter_id _ _ Adn), (filter_id _ _ At), Ldn, Lt, Sdn, St.
  cbn [Z.eqb Pos.eqb andb]. by rewrite <- Edn, <- Et.
Qed.

End NumberLogic.

Section ExpansionProperties.
Import Str StrFacts DecimalFacts ExpandFacts.

Lemma expand_ok_length expr max_span (l : list string) :
  expand_numbers expr max_span = Ok l →
  (1 ≤ length l)%nat
  ∧ (contains "-" (strip_whitespace expr) = true →
     Z.of_nat (length l) ≤ max_span ∧ 1 ≤ max_span)
  ∧ (contains "-" (strip_whitespace expr) = false → length l = 1%nat).
Proof.
  intros Hok.
  destruct (contains "-" (strip_whitespace expr)) eqn:Hdash.
  - destruct (contains_split _ _ Hdash) as (a & b & Hs & Ha).
    destruct (expand_ok_inv _ _ _ _ _ Hs Ha Hok) as (_ & _ & Hle & Hspan & ->).
    rewrite length_fmap, length_range. split; [lia |]. split; [intros _; lia | done].
  - rewrite (expand_numbers_no_dash _ _ Hdash) in Hok. injection Hok as <-.
    split; [simpl; lia | done].
Qed.

(** X4. An expansion that succeeds is never empty; on an expression with a
    dash it has at most [max_span] elements, so no range expands under a
    bound below one. *)
Theorem expand_numbers_nonempty expr max_span (l : list string) :
  expand_numbers expr max_span = Ok l →
  (1 ≤ length l)%nat
  ∧ (contains "-" (strip_whitespace expr) = true →
     Z.of_nat (length l) ≤ max_span ∧ 1 ≤ max_span).
Proof.
  intros Hok. destruct (expand_ok_length _ _ _ Hok) as (? & ? & _). done.
Qed.

(** X5. Whitespace is insignificant: a whitespace character inserted anywhere
    in an expression changes neither the expansion nor the preview, and an
    expression expands like its stripped form. *)
Theorem expand_numbers_whitespace (a b : string) c max_span :
  is_space c = true →
  expand_numbers (a +:+ String c b) max_span = expand_numbers (a +:+ b) max_span
  ∧ expand_preview (a +:+ String c b) = expand_preview (a +:+ b)
  ∧ expand_numbers (strip_whitespace (a +:+ b)) max_span
    = expand_numbers (a +:+ b) max_span.
Proof.
  intros Hc.
  assert (E : strip_whitespace (a +:+ String c b) = strip_whitespace (a +:+ b)).
  { unfold strip_whitespace. rewrite !filter_app. cbn [filter]. by rewrite Hc. }
  unfold expand_preview, expand_numbers. rewrite E.
  split; [done |]. split; [done |].
  unfold strip_whitespace. by rewrite filter_filter.
Qed.

(** X6. In a range only the digits of the two parts count: two expressions
    whose parts around the first dash carry the same digits expand alike, so
    punctuation, letters and further dashes in the end part are ignored. *)
Theorem expand_numbers_digits_only e1 e2 max_span (s1 t1 s2 t2 : string) :
  strip_whitespace e1 = s1 +:+ String "-" t1 → contains "-" s1 = false →
  strip_whitespace e2 = s2 +:+ String "-" t2 → contains "-" s2 = false →
  normalize_to_digits s1 = normalize_to_digits s2 →
  normalize_to_digits t1 = normalize_to_digits t2 →
  expand_numbers e1 max_span = expand_numbers e2 max_span.
Proof.
  intros H1 D1 H2 D2 Es Et.
  rewrite (expand_numbers_dash _ _ _ _ H1 D1), (expand_numbers_dash _ _ _ _ H2 D2).
  by rewrite Es, Et.
Qed.

Lemma strip_digits_dash (sd ed : string) :
  all is_digit sd = true → all is_digit ed = true →
  strip_whitespace (sd +:+ String "-" ed) = sd +:+ String "-" ed.
Proof.
  intros Hs He. unfold strip_whitespace. apply filter_id.
  rewrite all_app, (all_digit_no_space _ Hs). cbn [all andb].
  rewrite (all_digit_no_space _ He). by vm_compute.
Qed.

(** X7. The short form of a range means the long form: for digit strings with
    a non-empty end shorter than the start, [start-end] expands exactly like
    [start-] followed by the end completed with the leading digits of the
    start. *)
Theorem expand_numbers_shorthand (sd ed : string) max_span :
  all is_digit sd = true → all is_digit ed = true →
  ed ≠ "" → len ed < len sd →
  expand_numbers (sd +:+ String "-" ed) max_span
  = expand_numbers
      (sd +:+ String "-" (take (Z.to_nat (len sd - len ed)) sd +:+ ed)) max_span.
Proof.
  intros Hs He Hed Hlt.
  set (pre := take (Z.to_nat (len sd - len ed)) sd).
  assert (Hpre : all is_digit (pre +:+ ed) = true).
  { rewrite all_app, He. unfold pre. by rewrite all_take. }
  assert (Hlen : len (pre +:+ ed) = len sd).
  { rewrite len_app. unfold pre, len in *. rewrite length_take; lia. }
  rewrite (expand_numbers_dash _ _ sd ed (strip_digits_dash _ _ Hs He)
             (all_digit_no_dash _ Hs)).
  rewrite (expand_numbers_dash _ _ sd (pre +:+ ed) (strip_digits_dash _ _ Hs Hpre)
             (all_digit_no_dash _ Hs)).
  cbv zeta. unfold normalize_to_digits.
  rewrite (filter_id _ _ Hs), (filter_id _ _ He), (filter_id _ _ Hpre).
  assert (Ef : end_full_spec sd ed = pre +:+ ed).
  { unfold end_full_spec. by destruct (Z.ltb_spec (len ed) (len sd)); [| lia]. }
  assert (Ef' : end_full_spec sd (pre +:+ ed) = pre +:+ ed).
  { unfold end_full_spec. rewrite Hlen. by rewrite Z.ltb_irrefl. }
  rewrite Ef, Ef'.
  assert (Hne : is_empty ed = false).
  { by destruct ed. }
  assert (Hne' : is_empty (pre +:+ ed) = false).
  { destruct pre; simpl; [exact Hne | done]. }
  by rewrite Hne, Hne'.
Qed.

End ExpansionProperties.

Section PreviewProperties.
Import Str StrFacts DecimalFacts ExpandFacts.

Lemma classify_all_ok (l dns0 ts0 dns ts : list string) :
  classify_all l dns0 ts0 = Ok (dns, ts) →
  ∃ ps : list (string * string),
    Forall2 (λ t p, to_dn_and_target t = Ok p) l ps
    ∧ dns = (dns0 ++ ps.*1)%list ∧ ts = (ts0 ++ ps.*2)%list.
Proof.
  revert dns0 ts0. induction l as [|t l IH]; intros dns0 ts0; cbn [classify_all].
  - intros [= <- <-]. exists []. by rewrite !app_nil_r.
  - destruct (to_dn_and_target t) as [[dn target]|e] eqn:E; [| done].
    intros (ps & HF & -> & ->)%IH. exists ((dn, target) :: ps).
    split; [by constructor |]. by rewrite <- !app_assoc.
Qed.

Lemma classify_all_fail (l dns0 ts0 : list string) e :
  classify_all l dns0 ts0 = Raise e ↔
  ∃ (i : nat) t, l !! i = Some t ∧ to_dn_and_target t = Raise e
    ∧ ∀ (j : nat) t', (j < i)%nat → l !! j = Some t' →
        ∃ p, to_dn_and_target t' = Ok p.
Proof.
  revert dns0 ts0. induction l as [|t l IH]; intros dns0 ts0; cbn [classify_all].
  - split; [done |]. by intros (i & t & Hi & _).
  - destruct (to_dn_and_target t) as [[dn target]|e'] eqn:E.
    + rewrite IH. split.
      * intros (i & t' & Hi & He & Hbefore). exists (S i), t'.
        split; [done |]. split; [done |].
        intros [|j] t'' Hj Hl; [simplify_eq /=; eauto |].
        apply (Hbefore j); [lia | done].
      * intros ([|i] & t' & Hi & He & Hbefore); [simplify_eq /=; congruence |].
        exists i, t'. split; [done |]. split; [done |].
        intros j t'' Hj Hl. apply (Hbefore (S j)); [lia | done].
    + split.
      * intros [= <-]. exists 0%nat, t. split; [done |]. split; [done |].
        intros j ? Hj. lia.
      * intros ([|i] & t' & Hi & He & Hbefore); [simplify_eq /=; congruence |].
        destruct (Hbefore 0%nat t ltac:(lia) eq_refl) as [p Hp]. congruence.
Qed.

Lemma expand_preview_inv expr prev :
  expand_preview expr = Ok prev →
  ∃ (l : list string) (ps : list (string * string)),
    expand_numbers expr 100 = Ok l
    ∧ Forall2 (λ t p, to_dn_and_target t = Ok p) l ps
    ∧ prev = {| count := Z.of_nat (length ps.*2);
                expanded_targets := ps.*2;
                expanded_dns := ps.*1;
                expanded_redis_keys := (λ dn, "nprn:routing:" +:+ dn) <$> ps.*1 |}.
Proof.
  unfold expand_preview.
  destruct (expand_numbers expr 100) as [l|e] eqn:El; [| done]. cbn [rbind].
  destruct (classify_all l [] []) as [[dns ts]|e] eqn:Ec; [| done]. cbn [rbind].
  intros [= <-]. apply classify_all_ok in Ec as (ps & HF & -> & ->).
  exists l, ps. done.
Qed.

(** X8. A preview holds three lists of one length, which is its count and
    lies between 1 and 100; at every index the [dn] and the target are the
    classification of the expanded element at that index, and the cache key
    is the [dn] behind the routing prefix. *)
Theorem expand_preview_parallel expr prev :
  expand_preview expr = Ok prev →
  ∃ l : list string,
    expand_numbers expr 100 = Ok l
    ∧ count prev = Z.of_nat (length l) ∧ 1 ≤ count prev ≤ 100
    ∧ length (expanded_targets prev) = length l
    ∧ length (expanded_dns prev) = length l
    ∧ length (expanded_redis_keys prev) = length l
    ∧ ∀ (i : nat) t, l !! i = Some t →
        ∃ dn target,
          to_dn_and_target t = Ok (dn, target)
          ∧ expanded_dns prev !! i = Some dn
          ∧ expanded_targets prev !! i = Some target
          ∧ expanded_redis_keys prev !! i = Some ("nprn:routing:" +:+ dn).
Proof.
  intros (l & ps & El & HF & ->)%expand_preview_inv. exists l.
  pose proof (Forall2_length _ _ _ HF) as Hlen.
  cbn [count expanded_targets expanded_dns expanded_redis_keys].
  rewrite !length_fmap. split; [done |]. split; [by rewrite Hlen |].
  split.
  { rewrite <- Hlen. destruct (expand_ok_length _ _ _ El) as (H1 & Hdash & Hno).
    destruct (contains "-" (strip_whitespace expr)).
    - destruct (Hdash eq_refl). lia.
    - rewrite (Hno eq_refl). lia. }
  repeat (split; [done |]).
  intros i t Hi.
  destruct (Forall2_lookup_l _ _ _ _ _ HF Hi) as ([dn target] & Hp & Hc).
  exists dn, target. rewrite !list_lookup_fmap, Hp. done.
Qed.

(** X9. The preview is all or nothing and fails fast: an error of the
    expansion is the preview's error, and after a successful expansion the
    preview raises [e] exactly when [e] is the error of the first element
    that does not classify. *)
Theorem expand_preview_fail_fast expr :
  (∀ e, expand_numbers expr 100 = Raise e → expand_preview expr = Raise e)
  ∧ ∀ (l : list string) e,
      expand_numbers expr 100 = Ok l →
      (expand_preview expr = Raise e ↔
       ∃ (i : nat) t, l !! i = Some t ∧ to_dn_and_target t = Raise e
         ∧ ∀ (j : nat) t', (j < i)%nat → l !! j = Some t' →
             ∃ p, to_dn_and_target t' = Ok p).
Proof.
  split.
  - intros e He. unfold expand_preview. by rewrite He.
  - intros l e El. unfold expand_preview. rewrite El. cbn [rbind].
    etrans; [| apply (classify_all_fail l [] [] e)].
    destruct (classify_all l [] []) as [[dns ts]|e']; cbn [rbind].
    + split; intros; discriminate.
    + split; by intros [= ->].
Qed.

End PreviewProperties.

(** ** Further properties of the token check and the start-up *)

Section TokenCheck.

Lemma require_token_cases conf req :
  require_token conf req = Ok tt
  ∨ require_token conf req = Raise (HTTPException 401 "Unauthorized").
Proof.
  unfold require_token. destruct (negb _); [by right | by left].
Qed.

Lemma require_token_iff conf req :
  API_TOKEN conf ≠ "" →
  (require_token conf req = Ok tt ↔
   headers req !! "x-api-token" = Some (API_TOKEN conf)).
Proof.
  intros Hne. unfold require_token.
  destruct (headers req !! "x-api-token") as [t|].
  - destruct t as [|c t]; cbn [is_empty].
    + destruct (String.eqb_spec "" (API_TOKEN conf)) as [E | N]; cbn [negb].
      * by destruct Hne.
      * split; [done |]. intros [= E]. by destruct Hne.
    + destruct (String.eqb_spec (String c t) (API_TOKEN conf)) as [E | N]; cbn [negb].
      * split; [by rewrite E | done].
      * split; [done |]. intros [= E]. by destruct N.
  - destruct (String.eqb_spec "" (API_TOKEN conf)) as [E | N]; cbn [negb].
    + by destruct Hne.
    + split; done.
Qed.

(** X10. With a non-empty [API_TOKEN], a request passes the check exactly when
    it carries an [x-api-token] header equal to it; a missing or empty header
    and every other value get 401 Unauthorized. *)
Theorem require_token_exact conf req :
  API_TOKEN conf ≠ "" →
  (require_token conf req = Ok tt ↔
   headers req !! "x-api-token" = Some (API_TOKEN conf))
  ∧ (headers req !! "x-api-token" ≠ Some (API_TOKEN conf) →
     require_token conf req = Raise (HTTPException 401 "Unauthorized")).
Proof.
  intros Hne. split; [by apply require_token_iff |].
  intros Hh. destruct (require_token_cases conf req) as [Hok | Hno]; [| done].
  by apply require_token_iff in Hok.
Qed.

(** X11. Settings that load have a non-empty [API_TOKEN], the one of the
    environment, so the loaded program accepts exactly the requests whose
    header equals the environment's token; unset names fall back to the
    defaults of the source. *)
Theorem load_settings_guard py_int (environ : gmap string string) st :
  load_settings py_int environ = Ok st →
  let conf := settings_conf st in
  API_TOKEN conf ≠ ""
  ∧ environ !! "API_TOKEN" = Some (API_TOKEN conf)
  ∧ (∀ req, require_token conf req = Ok tt ↔
            headers req !! "x-api-token" = environ !! "API_TOKEN")
  ∧ (environ !! "BIND_HOST" = None → BIND_HOST st = "0.0.0.0")
  ∧ (environ !! "MDB_DB" = None → MDB_DB conf = "dispatcher-api2")
  ∧ (environ !! "REDIS_DB" = None → py_int "9" = Ok (REDIS_DB conf))
  ∧ (environ !! "MDB_PORT" = None → py_int "3306" = Ok (MDB_PORT conf))
  ∧ (environ !! "BIND_PORT" = None → py_int "8000" = Ok (BIND_PORT st)).
Proof.
  unfold load_settings, getenv.
  destruct (py_int _) as [bind_port|] eqn:E1; [| done]. cbn [rbind].
  destruct (py_int _) as [redis_db|] eqn:E2 in |- *; [| done]. cbn [rbind].
  destruct (py_int _) as [mdb_port|] eqn:E3 in |- *; [| done]. cbn [rbind].
  destruct (environ !! "API_TOKEN") as [tok|] eqn:Et; cbn [is_empty]; [| done].
  destruct tok as [|c tok]; cbn [is_empty]; [done |].
  intros [= <-]. cbn.
  split; [done |]. split; [done |].
  split; [intros req; by apply require_token_iff |].
  split; [by intros -> |]. split; [by intros -> |].
  split; [intros Hn; by rewrite Hn in E2 |].
  split; [intros Hn; by rewrite Hn in E3 | intros Hn; by rewrite Hn in E1].
Qed.

End TokenCheck.

(** ** Further properties of the operations *)

Section OperationProperties.
Context {W : Type} (h : Handler W).

(** X12. The token is checked before anything else: a request that fails the
    check gets 401 Unauthorized from each of the three operations, with no
    store call, whatever its input and mode. *)
Theorem unauthorized_before_all conf req body (w : W) :
  require_token conf req ≠ Ok tt →
  Forall (λ op : Config → Request → FixRequest → Prog (gmap string pyval),
            run h (op conf req body) w
            = (Raise (HTTPException 401 "Unauthorized"), w, []))
         [fix_enp; fix_nprn; fix_disp].
Proof.
  intros Hno.
  destruct (require_token_cases conf req) as [Hok | H401]; [done |].
  repeat constructor.
  - unfold fix_enp. by rewrite H401.
  - unfold fix_nprn. by rewrite H401.
  - unfold fix_disp. by rewrite H401.
Qed.

(** X13. A store whose settings are missing is never contacted: a live
    [fix_enp] without [PG_DSN], a live [fix_nprn] without [REDIS_URL], and
    [fix_disp] in either mode without host, user or database name raise a
    RuntimeError and make no store call. *)
Theorem missing_settings_no_call conf req body prev (w : W) :
  require_token conf req = Ok tt →
  expand_preview (input body) = Ok prev →
  (dry_run body = false → PG_DSN conf = "" →
   run h (fix_enp conf req body) w = (Raise (RuntimeError "PG_DSN missing"), w, []))
  ∧ (dry_run body = false → REDIS_URL conf = "" →
     run h (fix_nprn conf req body) w
     = (Raise (RuntimeError "REDIS_URL missing"), w, []))
  ∧ (MDB_HOST conf = "" ∨ MDB_USER conf = "" ∨ MDB_DB conf = "" →
     run h (fix_disp conf req body) w
     = (Raise (RuntimeError "MariaDB env missing"), w, [])).
Proof.
  intros Ht Hp. split; [| split].
  - intros Hd Hdsn. unfold fix_enp, pg_conn. by rewrite Ht, Hp, Hd, Hdsn.
  - intros Hd Hurl. unfold fix_nprn, redis_conn. by rewrite Ht, Hp, Hd, Hurl.
  - intros Hm. unfold fix_disp, mariadb_conn. rewrite Ht, Hp.
    destruct Hm as [-> | [-> | ->]]; cbn [is_empty negb andb];
      rewrite ?andb_false_r; done.
Qed.

(** X14. A dry run of [fix_nprn] on a valid input makes no store call, needs
    no [REDIS_URL], and answers the preview fields with the configured
    database index. *)
Theorem fix_nprn_dry_run conf req body prev (w : W) :
  require_token conf req = Ok tt →
  expand_preview (input body) = Ok prev →
  dry_run body = true →
  ∃ d : gmap string pyval,
    run h (fix_nprn conf req body) w = (Ok d, w, [])
    ∧ d !! "dry_run" = Some (VBool true)
    ∧ d !! "redis_db" = Some (VInt (REDIS_DB conf))
    ∧ d !! "count" = Some (VInt (count prev))
    ∧ d !! "expanded_targets" = Some (VStrs (expanded_targets prev))
    ∧ d !! "expanded_dns" = Some (VStrs (expanded_dns prev))
    ∧ d !! "expanded_redis_keys" = Some (VStrs (expanded_redis_keys prev))
    ∧ d !! "deleted_counts" = None.
Proof.
  intros Ht Hp Hd. unfold fix_nprn. rewrite Ht, Hp, Hd.
  eexists. split; [reflexivity |]. repeat split; by vm_compute.
Qed.

(** X15. A live [fix_nprn] builds the client, selects the configured database
    and sends one batch that deletes exactly the preview's cache keys.  When
    building the client or the select raises, no delete is sent and the
    exception reaches the caller; otherwise the answer carries the counts the
    store returned for the batch. *)
Theorem fix_nprn_live_calls conf req body prev (w : W) :
  require_token conf req = Ok tt →
  expand_preview (input body) = Ok prev →
  dry_run body = false →
  REDIS_URL conf ≠ "" →
  let from_url := RedisFromUrl (REDIS_URL conf) in
  let select := RedisSelect (REDIS_DB conf) in
  let delete := RedisPipelineDelete (expanded_redis_keys prev) in
  let out := run h (fix_nprn conf req body) w in
  (∀ e w1, h from_url w = (Raise e, w1) → out = (Raise e, w1, [from_url]))
  ∧ (∀ w1 e w2, h from_url w = (Ok tt, w1) → h select w1 = (Raise e, w2) →
       out = (Raise e, w2, [from_url; select]))
  ∧ (∀ w1 w2 e w3, h from_url w = (Ok tt, w1) → h select w1 = (Ok tt, w2) →
       h delete w2 = (Raise e, w3) →
       out = (Raise e, w3, [from_url; select; delete]))
  ∧ (∀ w1 w2 counts w3, h from_url w = (Ok tt, w1) → h select w1 = (Ok tt, w2) →
       h delete w2 = (Ok counts, w3) →
       ∃ d : gmap string pyval,
         out = (Ok d, w3, [from_url; select; delete])
         ∧ d !! "dry_run" = Some (VBool false)
         ∧ d !! "redis_db" = Some (VInt (REDIS_DB conf))
         ∧ d !! "deleted_counts" = Some (VInts counts)).
Proof.
  intros Ht Hp Hd Hurl. cbv zeta.
  unfold fix_nprn, redis_conn. rewrite Ht, Hp, Hd, (is_empty_false _ Hurl).
  repeat split.
  - intros e w1 H1. cbn. by rewrite H1.
  - intros w1 e w2 H1 H2. cbn. rewrite H1. cbn. by rewrite H2.
  - intros w1 w2 e w3 H1 H2 H3. cbn. rewrite H1. cbn. rewrite H2. cbn. by rewrite H3.
  - intros w1 w2 counts w3 H1 H2 H3. cbn. rewrite H1. cbn. rewrite H2. cbn.
    rewrite H3. cbn. eexists. split; [reflexivity |]. repeat split; by vm_compute.
Qed.

End OperationProperties.

Section ProvisioningProperties.
Context {W : Type} (h : Handler W).

Lemma run_try_finally_close {A} (p : Prog A) (w : W) :
  (run h (try_finally p (call MdbClose)) w).2 = ((run h p w).2 ++ [MdbClose])%list.
Proof.
  revert w. induction p as [a | e | c' k IH]; intros w.
  - cbn. by destruct (h MdbClose w) as [[x|e] w'].
  - cbn. by destruct (h MdbClose w) as [[x|e'] w'].
  - cbn. destruct (h c' w) as [x w1]. specialize (IH x w1).
    destruct (run h (try_finally (k x) (call MdbClose)) w1) as [[r2 w2] t2].
    destruct (run h (k x) w1) as [[r3 w3] t3]. cbn in *. by rewrite IH.
Qed.

Lemma fix_disp_connected conf req body prev :
  require_token conf req = Ok tt →
  expand_preview (input body) = Ok prev →
  MDB_HOST conf ≠ "" → MDB_USER conf ≠ "" → MDB_DB conf ≠ "" →
  fix_disp conf req body
  = Call (MdbConnect (MDB_HOST conf) (MDB_PORT conf) (MDB_USER conf)
                     (MDB_PASS conf) (MDB_DB conf) false)
      (λ x, _ ← lift x;
            try_finally
              (try_except
                 (rows ← call (MdbQuery (SelectCliProvisioning (expanded_targets prev)));
                  if dry_run body then
                    Ret (dict_lit ([("dry_run", VBool true)] ++ preview_items prev
                           ++ [("would_delete_count", VInt (Z.of_nat (length rows)));
                               ("would_delete_rows", VRows rows)]))
                  else
                    rowcount ← call (MdbExecute
                                 (DeleteCliProvisioning (expanded_targets prev)));
                    _ ← call MdbCommit;
                    Ret (dict_lit ([("dry_run", VBool false)] ++ preview_items prev
                           ++ [("deleted_count", VInt rowcount);
                               ("deleted_rows", VRows rows)])))
                 (λ e, _ ← call MdbRollback; Throw e))
              (call MdbClose)).
Proof.
  intros Ht Hp Hhost Huser Hdb. unfold fix_disp, mariadb_conn.
  by rewrite Ht, Hp, (is_empty_false _ Hhost), (is_empty_false _ Huser),
    (is_empty_false _ Hdb).
Qed.

(** X17. [fix_disp] never leaves a connection open: in either mode and
    whatever the store answers, once the connection is made the last call of
    the run is the close; when connecting itself raises, nothing else is
    called. *)
Theorem fix_disp_always_closes conf req body prev (w : W) :
  require_token conf req = Ok tt →
  expand_preview (input body) = Ok prev →
  MDB_HOST conf ≠ "" → MDB_USER conf ≠ "" → MDB_DB conf ≠ "" →
  let connect := MdbConnect (MDB_HOST conf) (MDB_PORT conf) (MDB_USER conf)
                            (MDB_PASS conf) (MDB_DB conf) false in
  let out := run h (fix_disp conf req body) w in
  (∀ w1, h connect w = (Ok tt, w1) →
     ∃ calls, out.2 = connect :: (calls ++ [MdbClose])%list)
  ∧ (∀ e w1, h connect w = (Raise e, w1) → out = (Raise e, w1, [connect])).
Proof.
  intros Ht Hp Hhost Huser Hdb. cbv zeta.
  rewrite (fix_disp_connected _ _ _ _ Ht Hp Hhost Huser Hdb). split.
  - intros w1 Hc. cbn [run]. rewrite Hc. cbn [lift mbind prog_bind bind].
    match goal with |- context [run h (try_finally ?p (call MdbClose)) w1] =>
      pose proof (run_try_finally_close p w1) as Hfin;
      destruct (run h (try_finally p (call MdbClose)) w1) as [[r2 w2] t2];
      exists (run h p w1).2
    end.
    cbn in *. by rewrite Hfin.
  - intros e w1 Hc. cbn [run]. rewrite Hc. done.
Qed.

(** X18. A dry run of [fix_disp] reads and does not write: after connecting
    its only calls are the snapshot query and the close, with no delete, no
    commit and no rollback, and its answer counts and lists the rows the
    query returned. *)
Theorem fix_disp_dry_run conf req body prev (w w1 w2 w3 : W) (rows : list cli_row) :
  require_token conf req = Ok tt →
  expand_preview (input body) = Ok prev →
  dry_run body = true →
  MDB_HOST conf ≠ "" → MDB_USER conf ≠ "" → MDB_DB conf ≠ "" →
  let connect := MdbConnect (MDB_HOST conf) (MDB_PORT conf) (MDB_USER conf)
                            (MDB_PASS conf) (MDB_DB conf) false in
  let snapshot := MdbQuery (SelectCliProvisioning (expanded_targets prev)) in
  h connect w = (Ok tt, w1) →
  h snapshot w1 = (Ok rows, w2) →
  h MdbClose w2 = (Ok tt, w3) →
  ∃ d : gmap string pyval,
    run h (fix_disp conf req body) w = (Ok d, w3, [connect; snapshot; MdbClose])
    ∧ d !! "dry_run" = Some (VBool true)
    ∧ d !! "would_delete_count" = Some (VInt (Z.of_nat (length rows)))
    ∧ d !! "would_delete_rows" = Some (VRows rows)
    ∧ d !! "deleted_count" = None.
Proof.
  intros Ht Hp Hd Hhost Huser Hdb. cbv zeta. intros Hc Hq Hcl.
  rewrite (fix_disp_connected _ _ _ _ Ht Hp Hhost Huser Hdb), Hd.
  cbn. rewrite Hc. cbn. rewrite Hq. cbn. rewrite Hcl. cbn.
  eexists. split; [reflexivity |]. repeat split; by vm_compute.
Qed.

(** X19. When the snapshot query raises, in either mode, [fix_disp] issues no
    delete and no commit: it rolls back, closes, and, these two succeeding,
    hands the query's exception to the caller. *)
Theorem fix_disp_query_failure conf req body prev (w w1 w2 : W) e :
  require_token conf req = Ok tt →
  expand_preview (input body) = Ok prev →
  MDB_HOST conf ≠ "" → MDB_USER conf ≠ "" → MDB_DB conf ≠ "" →
  let connect := MdbConnect (MDB_HOST conf) (MDB_PORT conf) (MDB_USER conf)
                            (MDB_PASS conf) (MDB_DB conf) false in
  let snapshot := MdbQuery (SelectCliProvisioning (expanded_targets prev)) in
  let out := run h (fix_disp conf req body) w in
  h connect w = (Ok tt, w1) →
  h snapshot w1 = (Raise e, w2) →
  out.2 = [connect; snapshot; MdbRollback; MdbClose]
  ∧ ∀ w3 w4, h MdbRollback w2 = (Ok tt, w3) → h MdbClose w3 = (Ok tt, w4) →
      out.1 = (Raise e, w4).
Proof.
  intros Ht Hp Hhost Huser Hdb. cbv zeta. intros Hc Hq.
  rewrite (fix_disp_connected _ _ _ _ Ht Hp Hhost Huser Hdb).
  cbn. rewrite Hc. cbn. rewrite Hq. cbn.
  destruct (h MdbRollback w2) as [[[]|e3] w3] eqn:Hrb; cbn;
    destruct (h MdbClose w3) as [[[]|e4] w4] eqn:Hcl; cbn;
    (split; [done |]); intros w3' w4' E3 E4; simplify_eq;
    rewrite E4 in Hcl; by simplify_eq.
Qed.

(** X20. When the commit of a live [fix_disp] raises, the rollback and the
    close still follow it, and, these two succeeding, the caller gets the
    commit's exception and no answer. *)
Theorem fix_disp_commit_failure conf req body prev (w w1 w2 w3 w4 : W)
    (rows : list cli_row) n e :
  require_token conf req = Ok tt →
  expand_preview (input body) = Ok prev →
  dry_run body = false →
  MDB_HOST conf ≠ "" → MDB_USER conf ≠ "" → MDB_DB conf ≠ "" →
  let connect := MdbConnect (MDB_HOST conf) (MDB_PORT conf) (MDB_USER conf)
                            (MDB_PASS conf) (MDB_DB conf) false in
  let snapshot := MdbQuery (SelectCliProvisioning (expanded_targets prev)) in
  let delete := MdbExecute (DeleteCliProvisioning (expanded_targets prev)) in
  let out := run h (fix_disp conf req body) w in
  h connect w = (Ok tt, w1) →
  h snapshot w1 = (Ok rows, w2) →
  h delete w2 = (Ok n, w3) →
  h MdbCommit w3 = (Raise e, w4) →
  out.2 = [connect; snapshot; delete; MdbCommit; MdbRollback; MdbClose]
  ∧ ∀ w5 w6, h MdbRollback w4 = (Ok tt, w5) → h MdbClose w5 = (Ok tt, w6) →
      out.1 = (Raise e, w6).
Proof.
  intros Ht Hp Hd Hhost Huser Hdb. cbv zeta. intros Hc Hq Hdel Hcom.
  rewrite (fix_disp_connected _ _ _ _ Ht Hp Hhost Huser Hdb), Hd.
  cbn. rewrite Hc. cbn. rewrite Hq. cbn. rewrite Hdel. cbn. rewrite Hcom. cbn.
  destruct (h MdbRollback w4) as [[[]|e5] w5] eqn:Hrb; cbn;
    destruct (h MdbClose w5) as [[[]|e6] w6] eqn:Hcl; cbn;
    (split; [done |]); intros w5' w6' E5 E6; simplify_eq;
    rewrite E6 in Hcl; by simplify_eq.
Qed.

End ProvisioningProperties.

Section RelationalProperties.

Lemma fix_enp_connected conf req body prev :
  require_token conf req = Ok tt →
  expand_preview (input body) = Ok prev →
  dry_run body = false →
  PG_DSN conf ≠ "" →
  fix_enp conf req body
  = (updated_dns ← (_ ← call (PgConnect (PG_DSN conf));
                    pg_conn_exit (call (PgExecute
                      (UpdateNumbers (system_id (ENP_MAP (enp_target body)))
                                     (nprn (ENP_MAP (enp_target body)))
                                     (expanded_dns prev)))));
     Ret (dict_lit ([("dry_run", VBool false);
                     ("enp_target", VStr (enp_name (enp_target body)))]
                    ++ preview_items prev ++ profile_items (ENP_MAP (enp_target body))
                    ++ [("updated_dns", VStrs updated_dns)]))).
Proof.
  intros Ht Hp Hd Hdsn. unfold fix_enp, pg_conn.
  by rewrite Ht, Hp, Hd, (is_empty_false _ Hdsn).
Qed.

(** X22. A live [fix_enp] over any store: when the update raises, no commit is
    made; a rollback and the close follow and, the close succeeding, the
    caller gets the update's exception even if the rollback failed.  When the
    update, the commit and the close succeed, the answer reports as updated
    exactly the [dn] values the store returned. *)
Theorem fix_enp_live_calls {W} (h : Handler W) conf req body prev (w w1 : W) :
  require_token conf req = Ok tt →
  expand_preview (input body) = Ok prev →
  dry_run body = false →
  PG_DSN conf ≠ "" →
  let cfg := ENP_MAP (enp_target body) in
  let connect := PgConnect (PG_DSN conf) in
  let update := PgExecute (UpdateNumbers (system_id cfg) (nprn cfg) (expanded_dns prev)) in
  let out := run h (fix_enp conf req body) w in
  h connect w = (Ok tt, w1) →
  (∀ e w2, h update w1 = (Raise e, w2) →
     out.2 = [connect; update; PgRollback; PgClose]
     ∧ ∀ r w3 w4, h PgRollback w2 = (r, w3) → h PgClose w3 = (Ok tt, w4) →
         out.1 = (Raise e, w4))
  ∧ (∀ returned w2 w3 w4, h update w1 = (Ok returned, w2) →
       h PgCommit w2 = (Ok tt, w3) → h PgClose w3 = (Ok tt, w4) →
       ∃ d : gmap string pyval,
         out = (Ok d, w4, [connect; update; PgCommit; PgClose])
         ∧ d !! "dry_run" = Some (VBool false)
         ∧ d !! "updated_dns" = Some (VStrs returned)
         ∧ d !! "system_id" = Some (VInt (system_id cfg))
         ∧ d !! "nprn" = Some (VInt (nprn cfg))).
Proof.
  intros Ht Hp Hd Hdsn. cbv zeta. intros Hc.
  rewrite (fix_enp_connected _ _ _ _ Ht Hp Hd Hdsn). split.
  - intros e w2 Hu. cbn. rewrite Hc. cbn. rewrite Hu. cbn.
    destruct (h PgRollback w2) as [r3 w3] eqn:Hrb; cbn.
    destruct (h PgClose w3) as [[[]|e4] w4] eqn:Hcl; cbn;
      (split; [done |]); intros r' w3' w4' E3 E4; simplify_eq;
      rewrite E4 in Hcl; by simplify_eq.
  - intros returned w2 w3 w4 Hu Hcom Hcl. cbn. rewrite Hc. cbn. rewrite Hu. cbn.
    rewrite Hcom. cbn. rewrite Hcl. cbn.
    eexists. split; [reflexivity |].
    destruct (enp_target body); repeat split; by vm_compute.
Qed.

Lemma pg_apply_twice now1 now2 sid np dns (tbl : list numbers_row) :
  pg_apply now2 (UpdateNumbers sid np dns)
           (pg_apply now1 (UpdateNumbers sid np dns) tbl).1
  = pg_apply now2 (UpdateNumbers sid np dns) tbl.
Proof.
  cbn [pg_apply fst]. f_equal.
  - rewrite <- list_fmap_compose. apply list_fmap_ext. intros i r _. cbn.
    destruct (bool_decide (n_dn r ∈ dns)) eqn:E; cbn [n_dn update_numbers_row];
      by rewrite E.
  - induction tbl as [|r tbl IH]; [done |].
    rewrite fmap_cons, !filter_cons. case_bool_decide as Hin; cbn [n_dn update_numbers_row].
    + rewrite !decide_True by done. rewrite !fmap_cons. cbn. by rewrite IH.
    + rewrite !decide_False by done. exact IH.
Qed.

(** X23. The reassignment is idempotent: on a store that does not fail, a live
    [fix_enp] repeated at a later time ends in the same state, with the same
    answer, as a single one made at that later time. *)
Theorem fix_enp_live_idempotent conf req body prev (w : PgWorld) (later : string) :
  require_token conf req = Ok tt →
  expand_preview (input body) = Ok prev →
  dry_run body = false →
  PG_DSN conf ≠ "" →
  pg_working w = pg_committed w →
  let at_later (x : PgWorld) :=
    {| pg_committed := pg_committed x; pg_working := pg_working x; pg_now := later |} in
  let first := run pg_handler (fix_enp conf req body) w in
  run pg_handler (fix_enp conf req body) (at_later first.1.2)
  = run pg_handler (fix_enp conf req body) (at_later w).
Proof.
  intros Ht Hp Hd Hdsn Hw. cbv zeta.
  rewrite (fix_enp_connected _ _ _ _ Ht Hp Hd Hdsn). cbn. rewrite Hw.
  pose proof (pg_apply_twice (pg_now w) later
                (system_id (ENP_MAP (enp_target body)))
                (nprn (ENP_MAP (enp_target body)))
                (expanded_dns prev) (pg_committed w)) as E.
  cbn [pg_apply fst] in E. injection E as E1 E2.
  by rewrite E1, E2.
Qed.

(** X24. On a store that does not fail, a live [fix_enp] succeeds whether or
    not rows match: it reports the [dn] of the rows among the expanded ones
    (possibly none), each reported [dn] is one of the expanded ones, and the
    table keeps its number of rows. *)
Theorem fix_enp_live_reports conf req body prev (w : PgWorld) :
  require_token conf req = Ok tt →
  expand_preview (input body) = Ok prev →
  dry_run body = false →
  PG_DSN conf ≠ "" →
  pg_working w = pg_committed w →
  let out := run pg_handler (fix_enp conf req body) w in
  let reported := n_dn <$> filter (λ r, n_dn r ∈ expanded_dns prev) (pg_committed w) in
  (∃ d : gmap string pyval,
     out.1.1 = Ok d ∧ d !! "updated_dns" = Some (VStrs reported))
  ∧ Forall (λ dn, dn ∈ expanded_dns prev) reported
  ∧ length (pg_committed out.1.2) = length (pg_committed w).
Proof.
  intros Ht Hp Hd Hdsn Hw. cbv zeta.
  rewrite (fix_enp_connected _ _ _ _ Ht Hp Hd Hdsn). cbn. rewrite Hw.
  split; [eexists; split; [reflexivity |]; destruct (enp_target body); by vm_compute |].
  split; [| by rewrite length_fmap].
  apply Forall_fmap, Forall_forall. intros r Hr.
  by apply list_elem_of_filter in Hr as [Hr _].
Qed.

End RelationalProperties.

Section ProvisioningReference.

(** X21. On a provisioning store that does not fail and is not changed in
    between, the dry run and the live run of [fix_disp] on one input agree:
    the dry run changes nothing and announces the rows whose target number
    is among the expanded targets; the live run deletes exactly those rows,
    reports their number, and leaves every other row. *)
Theorem fix_disp_dry_matches_live conf req (inp : string) (tgt : EnpTarget) prev
    (w : MdbWorld) :
  require_token conf req = Ok tt →
  expand_preview inp = Ok prev →
  MDB_HOST conf ≠ "" → MDB_USER conf ≠ "" → MDB_DB conf ≠ "" →
  mdb_working w = mdb_committed w →
  mdb_execute_fault w = None →
  let body dry := {| input := inp; dry_run := dry; enp_target := tgt |} in
  let dry := run mdb_handler (fix_disp conf req (body true)) w in
  let live := run mdb_handler (fix_disp conf req (body false)) w in
  let matched :=
    filter (λ r, c_target_number r ∈ expanded_targets prev) (mdb_committed w) in
  mdb_committed dry.1.2 = mdb_committed w
  ∧ mdb_committed live.1.2
    = filter (λ r, c_target_number r ∉ expanded_targets prev) (mdb_committed w)
  ∧ ∃ d_dry d_live : gmap string pyval,
      dry.1.1 = Ok d_dry ∧ live.1.1 = Ok d_live
      ∧ d_dry !! "would_delete_count" = Some (VInt (Z.of_nat (length matched)))
      ∧ d_live !! "deleted_count" = Some (VInt (Z.of_nat (length matched)))
      ∧ d_dry !! "would_delete_rows" = Some (VRows matched)
      ∧ d_live !! "deleted_rows" = Some (VRows matched).
Proof.
  intros Ht Hp Hhost Huser Hdb Hw Hf. cbv zeta.
  rewrite !(fix_disp_connected _ _ _ prev Ht) by done.
  cbn. rewrite Hf, Hw. cbn.
  split; [done |]. split; [done |].
  eexists _, _. split; [reflexivity |]. split; [reflexivity |].
  repeat split; by vm_compute.
Qed.

End ProvisioningReference.

Section Responses.
Context {W : Type} (h : Handler W).

Ltac answer_all :=
  repeat match goal with
         | |- context [h ?c ?w] => destruct (h c w) as [[?|?] ?]; cbn
         end.

(** X25. Every answer of the three operations comes from an authorised
    request with a valid input, states the mode that was asked for, and
    echoes the four preview fields unchanged: no later entry of the answer
    replaces them. *)
Theorem answers_echo_preview conf req body (w w' : W) (d : gmap string pyval) calls :
  Exists (λ op : Config → Request → FixRequest → Prog (gmap string pyval),
            run h (op conf req body) w = (Ok d, w', calls))
         [fix_enp; fix_nprn; fix_disp] →
  require_token conf req = Ok tt
  ∧ ∃ prev,
      expand_preview (input body) = Ok prev
      ∧ d !! "dry_run" = Some (VBool (dry_run body))
      ∧ d !! "count" = Some (VInt (count prev))
      ∧ d !! "expanded_targets" = Some (VStrs (expanded_targets prev))
      ∧ d !! "expanded_dns" = Some (VStrs (expanded_dns prev))
      ∧ d !! "expanded_redis_keys" = Some (VStrs (expanded_redis_keys prev)).
Proof.
  intros Hex.
  destruct (require_token conf req) as [[]|e] eqn:Ht.
  2: { exfalso. apply Exists_exists in Hex as (op & Hop & Hrun).
       set_unfold. destruct Hop as [-> | [-> | [-> | []]]];
         [unfold fix_enp in Hrun | unfold fix_nprn in Hrun | unfold fix_disp in Hrun];
         by rewrite Ht in Hrun. }
  split; [done |].
  destruct (expand_preview (input body)) as [prev|e] eqn:Hp.
  2: { exfalso. apply Exists_exists in Hex as (op & Hop & Hrun).
       set_unfold. destruct Hop as [-> | [-> | [-> | []]]];
         [unfold fix_enp in Hrun | unfold fix_nprn in Hrun | unfold fix_disp in Hrun];
         by rewrite Ht, Hp in Hrun. }
  exists prev. split; [done |].
  apply Exists_exists in Hex as (op & Hop & Hrun). revert Hrun.
  set_unfold. destruct Hop as [-> | [-> | [-> | []]]].
  - unfold fix_enp, pg_conn. rewrite Ht, Hp.
    destruct (dry_run body), (is_empty (PG_DSN conf)); cbn; answer_all;
      intros [= <- <- <-] || (intros ?; discriminate);
      destruct (enp_target body); repeat split; by vm_compute.
  - unfold fix_nprn, redis_conn. rewrite Ht, Hp.
    destruct (dry_run body), (is_empty (REDIS_URL conf)); cbn; answer_all;
      intros [= <- <- <-] || (intros ?; discriminate);
      repeat split; by vm_compute.
  - unfold fix_disp, mariadb_conn. rewrite Ht, Hp.
    destruct (negb _), (dry_run body); cbn; answer_all;
      intros [= <- <- <-] || (intros ?; discriminate);
      repeat split; by vm_compute.
Qed.

End Responses.

Section CacheReference.

Lemma redis_del_spec (keys : list string) (ks : gmap string string) :
  length (redis_del keys ks).1 = length keys
  ∧ (∀ k, k ∈ keys → (redis_del keys ks).2 !! k = None)
  ∧ (∀ k, k ∉ keys → (redis_del keys ks).2 !! k = ks !! k)
  ∧ Forall (λ n, n = 0 ∨ n = 1) (redis_del keys ks).1
  ∧ (∀ (i : nat) k, keys !! i = Some k → ks !! k = None →
       (redis_del keys ks).1 !! i = Some 0).
Proof.
  revert ks. induction keys as [|k keys IH]; intros ks; cbn [redis_del].
  - repeat split; try done. intros k Hk. by apply not_elem_of_nil in Hk.
  - specialize (IH (delete k ks)).
    destruct (redis_del keys (delete k ks)) as [ns ks'] eqn:E. cbn [fst snd] in *.
    destruct IH as (Hlen & Hin & Hout & Hbin & Hzero).
    split; [cbn; by rewrite Hlen |].
    split.
    { intros k' [E' | Hk']%elem_of_cons; [| by apply Hin]. subst k'.
      destruct (decide (k ∈ keys)) as [Hk | Hk]; [by apply Hin |].
      rewrite (Hout _ Hk). apply lookup_delete_eq. }
    split.
    { intros k' [Hne Hk']%not_elem_of_cons.
      rewrite (Hout _ Hk'). by apply lookup_delete_ne. }
    split.
    { constructor; [| done]. destruct (ks !! k); [by right | by left]. }
    intros [|i] k' Hi Hnone; cbn in *.
    + injection Hi as ->. by rewrite Hnone.
    + apply (Hzero i k' Hi).
      destruct (decide (k = k')) as [-> | Hne];
        [apply lookup_delete_eq | by rewrite lookup_delete_ne].
Qed.

(** X16. On a key-value store that does not fail, a live [fix_nprn] removes
    every cache key of the preview from the configured database and nothing
    else: other keys of that database and all other databases are as before.
    It answers one count per key, each 0 or 1, and 0, not an error, for a key
    that was not there. *)
Theorem fix_nprn_live_deletes conf req body prev (w : RedisWorld) :
  require_token conf req = Ok tt →
  expand_preview (input body) = Ok prev →
  dry_run body = false →
  REDIS_URL conf ≠ "" →
  let out := run redis_handler (fix_nprn conf req body) w in
  let keys := expanded_redis_keys prev in
  let before := redis_keyspace w (REDIS_DB conf) in
  let after := redis_keyspace out.1.2 (REDIS_DB conf) in
  (∀ k, k ∈ keys → after !! k = None)
  ∧ (∀ k, k ∉ keys → after !! k = before !! k)
  ∧ (∀ db, db ≠ REDIS_DB conf →
       redis_keyspace out.1.2 db = redis_keyspace w db)
  ∧ ∃ (d : gmap string pyval) (counts : list Z),
      out.1.1 = Ok d
      ∧ d !! "deleted_counts" = Some (VInts counts)
      ∧ length counts = length keys
      ∧ Forall (λ n, n = 0 ∨ n = 1) counts
      ∧ ∀ (i : nat) k, keys !! i = Some k → before !! k = None →
          counts !! i = Some 0.
Proof.
  intros Ht Hp Hd Hurl. cbv zeta.
  unfold fix_nprn, redis_conn. rewrite Ht, Hp, Hd, (is_empty_false _ Hurl).
  cbn. unfold redis_keyspace. cbn.
  pose proof (redis_del_spec (expanded_redis_keys prev)
                (default ∅ (redis_dbs w !! REDIS_DB conf)))
    as (Hlen & Hin & Hout & Hbin & Hzero).
  destruct (redis_del (expanded_redis_keys prev)
              (default ∅ (redis_dbs w !! REDIS_DB conf))) as [ns ks] eqn:E.
  cbn in *. rewrite lookup_insert_eq. cbn.
  split; [done |]. split; [done |].
  split; [intros db Hdb; by rewrite lookup_insert_ne |].
  eexists _, ns. split; [reflexivity |].
  split; [by vm_compute |]. done.
Qed.

End CacheReference.

(** ** The further properties at sample inputs *)

Lemma to_dn_and_target_shape_witness :
  to_dn_and_target "041 234 56 78" = Ok ("41412345678", "0412345678")
  ∧ Str.len "41412345678" = 11 ∧ Str.len "0412345678" = 10.
Proof.
  assert (H : to_dn_and_target "041 234 56 78" = Ok ("41412345678", "0412345678"))
    by (vm_compute; reflexivity).
  split; [exact H |].
  destruct (to_dn_and_target_shape _ _ _ H) as (H1 & _ & _ & H2 & _).
  split; [exact H1 | exact H2].
Defined.

Lemma to_dn_and_target_canonical_witness :
  to_dn_and_target "041 234 56 78" = Ok ("41412345678", "0412345678")
  ∧ to_dn_and_target "41412345678" = Ok ("41412345678", "0412345678")
  ∧ to_dn_and_target "0412345678" = Ok ("41412345678", "0412345678").
Proof.
  assert (H : to_dn_and_target "041 234 56 78" = Ok ("41412345678", "0412345678"))
    by (vm_compute; reflexivity).
  split; [exact H |]. exact (to_dn_and_target_canonical _ _ _ H).
Defined.

Lemma expand_numbers_nonempty_witness :
  expand_numbers "0412345678-681" 100
  = Ok ["0412345678"; "0412345679"; "0412345680"; "0412345681"]
  ∧ (1 ≤ 4)%nat.
Proof.
  assert (H : expand_numbers "0412345678-681" 100
              = Ok ["0412345678"; "0412345679"; "0412345680"; "0412345681"])
    by (vm_compute; reflexivity).
  split; [exact H |]. exact (proj1 (expand_numbers_nonempty _ _ _ H)).
Defined.

Lemma expand_numbers_whitespace_witness :
  Str.is_space " " = true
  ∧ expand_numbers ("0412345678" +:+ String " " "-681") 100
    = expand_numbers ("0412345678" +:+ "-681") 100.
Proof.
  assert (H : Str.is_space " " = true) by (vm_compute; reflexivity).
  split; [exact H |].
  exact (proj1 (expand_numbers_whitespace "0412345678" "-681" " " 100 H)).
Defined.

Lemma expand_numbers_digits_only_witness :
  strip_whitespace "0412345678-6-8-1" = "0412345678" +:+ String "-" "6-8-1"
  ∧ strip_whitespace "(041) 234 56 78 - 681" = "(041)2345678" +:+ String "-" "681"
  ∧ expand_numbers "0412345678-6-8-1" 100
    = expand_numbers "(041) 234 56 78 - 681" 100.
Proof.
  assert (H1 : strip_whitespace "0412345678-6-8-1"
               = "0412345678" +:+ String "-" "6-8-1") by (vm_compute; reflexivity).
  assert (H2 : strip_whitespace "(041) 234 56 78 - 681"
               = "(041)2345678" +:+ String "-" "681") by (vm_compute; reflexivity).
  split; [exact H1 |]. split; [exact H2 |].
  apply (expand_numbers_digits_only _ _ 100 _ _ _ _ H1 ltac:(vm_compute; reflexivity)
           H2 ltac:(vm_compute; reflexivity));
    vm_compute; reflexivity.
Defined.

Lemma expand_numbers_shorthand_witness :
  Str.all Str.is_digit "0412345678" = true
  ∧ Str.all Str.is_digit "681" = true
  ∧ Str.len "681" < Str.len "0412345678"
  ∧ expand_numbers "0412345678-681" 100 = expand_numbers "0412345678-0412345681" 100.
Proof.
  assert (H1 : Str.all Str.is_digit "0412345678" = true) by (vm_compute; reflexivity).
  assert (H2 : Str.all Str.is_digit "681" = true) by (vm_compute; reflexivity).
  assert (H3 : Str.len "681" < Str.len "0412345678") by (vm_compute; reflexivity).
  split; [exact H1 |]. split; [exact H2 |]. split; [exact H3 |].
  exact (expand_numbers_shorthand "0412345678" "681" 100 H1 H2
           ltac:(discriminate) H3).
Defined.

Lemma expand_preview_parallel_witness :
  expand_preview "0412345678-681" = Ok sample_preview
  ∧ ∃ l : list string,
      expand_numbers "0412345678-681" 100 = Ok l
      ∧ count sample_preview = Z.of_nat (length l).
Proof.
  assert (H : expand_preview "0412345678-681" = Ok sample_preview)
    by (vm_compute; reflexivity).
  split; [exact H |].
  destruct (expand_preview_parallel _ _ H) as (l & Hl & Hc & _).
  exists l. split; [exact Hl | exact Hc].
Defined.

Lemma expand_preview_fail_fast_witness :
  expand_numbers "0412345681-678" 100 = Raise range_end_before_start
  ∧ expand_preview "0412345681-678" = Raise range_end_before_start.
Proof.
  assert (H : expand_numbers "0412345681-678" 100 = Raise range_end_before_start)
    by (vm_compute; reflexivity).
  split; [exact H |].
  exact (proj1 (expand_preview_fail_fast "0412345681-678") _ H).
Defined.

Lemma require_token_exact_witness :
  API_TOKEN sample_conf ≠ ""
  ∧ require_token sample_conf anonymous_req
    = Raise (HTTPException 401 "Unauthorized").
Proof.
  assert (H : API_TOKEN sample_conf ≠ "") by discriminate.
  split; [exact H |].
  apply (proj2 (require_token_exact sample_conf anonymous_req H)).
  vm_compute. discriminate.
Defined.

Lemma load_settings_guard_witness :
  load_settings sample_int sample_environ = Ok sample_settings
  ∧ API_TOKEN (settings_conf sample_settings) ≠ "".
Proof.
  assert (H : load_settings sample_int sample_environ = Ok sample_settings)
    by (vm_compute; reflexivity).
  split; [exact H |].
  exact (proj1 (load_settings_guard sample_int sample_environ sample_settings H)).
Defined.

Lemma unauthorized_before_all_witness :
  require_token sample_conf anonymous_req ≠ Ok tt
  ∧ Forall (λ op : Config → Request → FixRequest → Prog (gmap string pyval),
              run pg_handler (op sample_conf anonymous_req (sample_body false)) sample_pg
              = (Raise (HTTPException 401 "Unauthorized"), sample_pg, []))
           [fix_enp; fix_nprn; fix_disp].
Proof.
  assert (H : require_token sample_conf anonymous_req ≠ Ok tt)
    by (vm_compute; discriminate).
  split; [exact H |].
  exact (unauthorized_before_all pg_handler sample_conf anonymous_req
           (sample_body false) sample_pg H).
Defined.

Lemma missing_settings_no_call_witness :
  require_token (settings_conf sample_settings) sample_req = Ok tt
  ∧ expand_preview (input (sample_body false)) = Ok sample_preview
  ∧ PG_DSN (settings_conf sample_settings) = ""
  ∧ run pg_handler (fix_enp (settings_conf sample_settings) sample_req
                            (sample_body false)) sample_pg
    = (Raise (RuntimeError "PG_DSN missing"), sample_pg, []).
Proof.
  assert (Ht : require_token (settings_conf sample_settings) sample_req = Ok tt)
    by (vm_compute; reflexivity).
  assert (Hp : expand_preview (input (sample_body false)) = Ok sample_preview)
    by (vm_compute; reflexivity).
  split; [exact Ht |]. split; [exact Hp |]. split; [reflexivity |].
  exact (proj1 (missing_settings_no_call pg_handler _ _ _ _ sample_pg Ht Hp)
           eq_refl eq_refl).
Defined.

Lemma fix_nprn_dry_run_witness :
  require_token sample_conf sample_req = Ok tt
  ∧ expand_preview (input (sample_body true)) = Ok sample_preview
  ∧ ∃ d : gmap string pyval,
      run redis_handler (fix_nprn sample_conf sample_req (sample_body true)) sample_redis
      = (Ok d, sample_redis, [])
      ∧ d !! "redis_db" = Some (VInt 9).
Proof.
  assert (Ht : require_token sample_conf sample_req = Ok tt) by (vm_compute; reflexivity).
  assert (Hp : expand_preview (input (sample_body true)) = Ok sample_preview)
    by (vm_compute; reflexivity).
  split; [exact Ht |]. split; [exact Hp |].
  destruct (fix_nprn_dry_run redis_handler sample_conf sample_req (sample_body true)
              sample_preview sample_redis Ht Hp eq_refl) as (d & Hrun & _ & Hdb & _).
  exists d. split; [exact Hrun | exact Hdb].
Defined.

Lemma fix_nprn_live_calls_witness :
  require_token sample_conf sample_req = Ok tt
  ∧ expand_preview (input (sample_body false)) = Ok sample_preview
  ∧ REDIS_URL sample_conf ≠ ""
  ∧ run scripted_handler (fix_nprn sample_conf sample_req (sample_body false))
        [true; false]
    = (Raise (DriverError "scripted failure"), [],
       [RedisFromUrl "redis://cache"; RedisSelect 9]).
Proof.
  assert (Ht : require_token sample_conf sample_req = Ok tt) by (vm_compute; reflexivity).
  assert (Hp : expand_preview (input (sample_body false)) = Ok sample_preview)
    by (vm_compute; reflexivity).
  assert (Hu : REDIS_URL sample_conf ≠ "") by discriminate.
  split; [exact Ht |]. split; [exact Hp |]. split; [exact Hu |].
  destruct (fix_nprn_live_calls scripted_handler sample_conf sample_req
              (sample_body false) sample_preview [true; false] Ht Hp eq_refl Hu)
    as (_ & Hsel & _).
  exact (Hsel [false] _ [] eq_refl eq_refl).
Defined.

Lemma fix_disp_always_closes_witness :
  require_token sample_conf sample_req = Ok tt
  ∧ expand_preview (input (sample_body true)) = Ok sample_preview
  ∧ ∃ calls,
      (run mdb_handler (fix_disp sample_conf sample_req (sample_body true))
           (sample_mdb None)).2
      = MdbConnect "provisioning" 3306 "fixer" "" "dispatcher-api2" false
          :: (calls ++ [MdbClose])%list.
Proof.
  assert (Ht : require_token sample_conf sample_req = Ok tt) by (vm_compute; reflexivity).
  assert (Hp : expand_preview (input (sample_body true)) = Ok sample_preview)
    by (vm_compute; reflexivity).
  split; [exact Ht |]. split; [exact Hp |].
  exact (proj1 (fix_disp_always_closes mdb_handler sample_conf sample_req
                  (sample_body true) sample_preview (sample_mdb None) Ht Hp
                  ltac:(discriminate) ltac:(discriminate) ltac:(discriminate))
           (sample_mdb None) eq_refl).
Defined.

Lemma fix_disp_dry_run_witness :
  require_token sample_conf sample_req = Ok tt
  ∧ expand_preview (input (sample_body true)) = Ok sample_preview
  ∧ ∃ d : gmap string pyval,
      run scripted_handler (fix_disp sample_conf sample_req (sample_body true)) []
      = (Ok d, [],
         [MdbConnect "provisioning" 3306 "fixer" "" "dispatcher-api2" false;
          MdbQuery (SelectCliProvisioning (expanded_targets sample_preview));
          MdbClose])
      ∧ d !! "would_delete_count" = Some (VInt 0).
Proof.
  assert (Ht : require_token sample_conf sample_req = Ok tt) by (vm_compute; reflexivity).
  assert (Hp : expand_preview (input (sample_body true)) = Ok sample_preview)
    by (vm_compute; reflexivity).
  split; [exact Ht |]. split; [exact Hp |].
  destruct (fix_disp_dry_run scripted_handler sample_conf sample_req (sample_body true)
              sample_preview [] [] [] [] [] Ht Hp eq_refl
              ltac:(discriminate) ltac:(discriminate) ltac:(discriminate)
              eq_refl eq_refl eq_refl) as (d & Hrun & _ & Hcount & _).
  exists d. split; [exact Hrun | exact Hcount].
Defined.

Lemma fix_disp_query_failure_witness :
  require_token sample_conf sample_req = Ok tt
  ∧ expand_preview (input (sample_body false)) = Ok sample_preview
  ∧ (run scripted_handler (fix_disp sample_conf sample_req (sample_body false))
         [true; false]).2
    = [MdbConnect "provisioning" 3306 "fixer" "" "dispatcher-api2" false;
       MdbQuery (SelectCliProvisioning (expanded_targets sample_preview));
       MdbRollback; MdbClose].
Proof.
  assert (Ht : require_token sample_conf sample_req = Ok tt) by (vm_compute; reflexivity).
  assert (Hp : expand_preview (input (sample_body false)) = Ok sample_preview)
    by (vm_compute; reflexivity).
  split; [exact Ht |]. split; [exact Hp |].
  exact (proj1 (fix_disp_query_failure scripted_handler sample_conf sample_req
                  (sample_body false) sample_preview [true; false] [false] [] _
                  Ht Hp ltac:(discriminate) ltac:(discriminate) ltac:(discriminate)
                  eq_refl eq_refl)).
Defined.

Lemma fix_disp_commit_failure_witness :
  require_token sample_conf sample_req = Ok tt
  ∧ expand_preview (input (sample_body false)) = Ok sample_preview
  ∧ (run scripted_handler (fix_disp sample_conf sample_req (sample_body false))
         [true; true; true; false]).1
    = (Raise (DriverError "scripted failure"), []).
Proof.
  assert (Ht : require_token sample_conf sample_req = Ok tt) by (vm_compute; reflexivity).
  assert (Hp : expand_preview (input (sample_body false)) = Ok sample_preview)
    by (vm_compute; reflexivity).
  split; [exact Ht |]. split; [exact Hp |].
  exact (proj2 (fix_disp_commit_failure scripted_handler sample_conf sample_req
                  (sample_body false) sample_preview
                  [true; true; true; false] [true; true; false] [true; false] [false] []
                  [] 0 _ Ht Hp eq_refl
                  ltac:(discriminate) ltac:(discriminate) ltac:(discriminate)
                  eq_refl eq_refl eq_refl eq_refl)
           [] [] eq_refl eq_refl).
Defined.

Lemma fix_enp_live_calls_witness :
  require_token sample_conf sample_req = Ok tt
  ∧ expand_preview (input (sample_body false)) = Ok sample_preview
  ∧ PG_DSN sample_conf ≠ ""
  ∧ (run scripted_handler (fix_enp sample_conf sample_req (sample_body false))
         [true; false]).2
    = [PgConnect "postgresql://numbers";
       PgExecute (UpdateNumbers 510 98019 (expanded_dns sample_preview));
       PgRollback; PgClose].
Proof.
  assert (Ht : require_token sample_conf sample_req = Ok tt) by (vm_compute; reflexivity).
  assert (Hp : expand_preview (input (sample_body false)) = Ok sample_preview)
    by (vm_compute; reflexivity).
  assert (Hdsn : PG_DSN sample_conf ≠ "") by discriminate.
  split; [exact Ht |]. split; [exact Hp |]. split; [exact Hdsn |].
  destruct (fix_enp_live_calls scripted_handler sample_conf sample_req
              (sample_body false) sample_preview [true; false] [false]
              Ht Hp eq_refl Hdsn eq_refl) as [Hfail _].
  exact (proj1 (Hfail _ [] eq_refl)).
Defined.

Lemma fix_enp_live_idempotent_witness :
  require_token sample_conf sample_req = Ok tt
  ∧ expand_preview (input (sample_body false)) = Ok sample_preview
  ∧ PG_DSN sample_conf ≠ ""
  ∧ pg_working sample_pg = pg_committed sample_pg
  ∧ let at_later (x : PgWorld) :=
      {| pg_committed := pg_committed x; pg_working := pg_working x;
         pg_now := "2026-06-01 00:00:00" |} in
    run pg_handler (fix_enp sample_conf sample_req (sample_body false))
        (at_later (run pg_handler (fix_enp sample_conf sample_req (sample_body false))
                       sample_pg).1.2)
    = run pg_handler (fix_enp sample_conf sample_req (sample_body false))
          (at_later sample_pg).
Proof.
  assert (Ht : require_token sample_conf sample_req = Ok tt) by (vm_compute; reflexivity).
  assert (Hp : expand_preview (input (sample_body false)) = Ok sample_preview)
    by (vm_compute; reflexivity).
  assert (Hdsn : PG_DSN sample_conf ≠ "") by discriminate.
  split; [exact Ht |]. split; [exact Hp |]. split; [exact Hdsn |].
  split; [reflexivity |].
  exact (fix_enp_live_idempotent sample_conf sample_req (sample_body false)
           sample_preview sample_pg "2026-06-01 00:00:00" Ht Hp eq_refl Hdsn eq_refl).
Defined.

Lemma fix_enp_live_reports_witness :
  require_token sample_conf sample_req = Ok tt
  ∧ expand_preview (input (sample_body false)) = Ok sample_preview
  ∧ PG_DSN sample_conf ≠ ""
  ∧ ∃ d : gmap string pyval,
      (run pg_handler (fix_enp sample_conf sample_req (sample_body false))
           sample_pg).1.1 = Ok d
      ∧ d !! "updated_dns" = Some (VStrs ["41412345679"]).
Proof.
  assert (Ht : require_token sample_conf sample_req = Ok tt) by (vm_compute; reflexivity).
  assert (Hp : expand_preview (input (sample_body false)) = Ok sample_preview)
    by (vm_compute; reflexivity).
  assert (Hdsn : PG_DSN sample_conf ≠ "") by discriminate.
  split; [exact Ht |]. split; [exact Hp |]. split; [exact Hdsn |].
  destruct (fix_enp_live_reports sample_conf sample_req (sample_body false)
              sample_preview sample_pg Ht Hp eq_refl Hdsn eq_refl)
    as ((d & Hrun & Hup) & _).
  exists d. split; [exact Hrun |].
  rewrite Hup. vm_compute. reflexivity.
Defined.

Lemma fix_disp_dry_matches_live_witness :
  require_token sample_conf sample_req = Ok tt
  ∧ expand_preview "0412345678-681" = Ok sample_preview
  ∧ c_id <$> mdb_committed
      (run mdb_handler (fix_disp sample_conf sample_req (sample_body false))
           (sample_mdb None)).1.2
    = [2].
Proof.
  assert (Ht : require_token sample_conf sample_req = Ok tt) by (vm_compute; reflexivity).
  assert (Hp : expand_preview "0412345678-681" = Ok sample_preview)
    by (vm_compute; reflexivity).
  split; [exact Ht |]. split; [exact Hp |].
  destruct (fix_disp_dry_matches_live sample_conf sample_req "0412345678-681" NXP2
              sample_preview (sample_mdb None) Ht Hp
              ltac:(discriminate) ltac:(discriminate) ltac:(discriminate)
              eq_refl eq_refl) as (_ & Hlive & _).
  change (sample_body false)
    with {| input := "0412345678-681"; dry_run := false; enp_target := NXP2 |}.
  rewrite Hlive. vm_compute. reflexivity.
Defined.

Lemma answers_echo_preview_witness :
  run pg_handler (fix_enp sample_conf sample_req (sample_body true)) sample_pg
  = (Ok sample_answer, sample_pg, [])
  ∧ expand_preview (input (sample_body true)) = Ok sample_preview
  ∧ sample_answer !! "count" = Some (VInt 4).
Proof.
  assert (H : run pg_handler (fix_enp sample_conf sample_req (sample_body true)) sample_pg
              = (Ok sample_answer, sample_pg, [])) by (vm_compute; reflexivity).
  assert (Hp : expand_preview (input (sample_body true)) = Ok sample_preview)
    by (vm_compute; reflexivity).
  split; [exact H |]. split; [exact Hp |].
  destruct (answers_echo_preview pg_handler sample_conf sample_req (sample_body true)
              sample_pg sample_pg sample_answer [] (Exists_cons_hd _ _ _ H))
    as (_ & prev & Hprev & _ & Hcount & _).
  rewrite Hp in Hprev. injection Hprev as <-. exact Hcount.
Defined.

Lemma fix_nprn_live_deletes_witness :
  require_token sample_conf sample_req = Ok tt
  ∧ expand_preview (input (sample_body false)) = Ok sample_preview
  ∧ REDIS_URL sample_conf ≠ ""
  ∧ redis_keyspace
      (run redis_handler (fix_nprn sample_conf sample_req (sample_body false))
           sample_redis).1.2 9 !! "nprn:routing:41412345679" = None.
Proof.
  assert (Ht : require_token sample_conf sample_req = Ok tt) by (vm_compute; reflexivity).
  assert (Hp : expand_preview (input (sample_body false)) = Ok sample_preview)
    by (vm_compute; reflexivity).
  assert (Hu : REDIS_URL sample_conf ≠ "") by discriminate.
  split; [exact Ht |]. split; [exact Hp |]. split; [exact Hu |].
  destruct (fix_nprn_live_deletes sample_conf sample_req (sample_body false)
              sample_preview sample_redis Ht Hp eq_refl Hu) as (Hgone & _).
  apply Hgone. apply list_elem_of_further, list_elem_of_here.
Defined.
